(** * hwinfo.py: a Waybar hardware probe, specified and verified

    A shallow embedding of [hwinfo.py]: the three sensor readers
    ([get_cpu_temperature], [get_cpu_load], [get_memory_usage]), the
    formatter [format_waybar_output] and [main], together with the parts of
    the Python runtime they rest on (text, binary64 floats, exceptions,
    [json.dumps]).

    Conventions.
    - A Python [str] is the list of its code points.
    - A Python [float] is a primitive binary64 float; its exact value is read
      through [Prim2SF] whenever Python rounds or prints it in decimal.
    - Code that may raise returns a [result]; [try]/[except] is a [match].
    - The world outside the program (psutil, sysfs, procfs, the clock) is a
      record [Env] that the readers take as an argument. *)

From Stdlib Require Import ZArith NArith List String Ascii Bool Lia.
From Stdlib Require Import PrimFloat SpecFloat FloatOps FloatAxioms.
Import ListNotations.

Set Implicit Arguments.
Set Warnings "-inexact-float".
Local Open Scope Z_scope.

(* ================================================================= *)
(** ** Text *)

(** A Python string: its code points, in order. *)
Definition str := list N.

(** ASCII literals. *)
Definition lit (s : string) : str := map N_of_ascii (list_ascii_of_string s).

Fixpoint str_eqb (a b : str) : bool :=
  match a, b with
  | [], [] => true
  | x :: a', y :: b' => N.eqb x y && str_eqb a' b'
  | _, _ => false
  end.

(** [str.isspace] on one code point: the whitespace that [str.strip()] and
    [str.split()] remove. *)
Definition isspace (c : N) : bool :=
  let c := Z.of_N c in
  ((9 <=? c) && (c <=? 13)) || ((28 <=? c) && (c <=? 32))
  || (c =? 133) || (c =? 160) || (c =? 5760)
  || ((8192 <=? c) && (c <=? 8202))
  || (c =? 8232) || (c =? 8233) || (c =? 8239) || (c =? 8287) || (c =? 12288).

Fixpoint lstrip (s : str) : str :=
  match s with
  | c :: s' => if isspace c then lstrip s' else s
  | [] => []
  end.

Definition rstrip (s : str) : str := rev (lstrip (rev s)).

(** [s.strip()] *)
Definition strip (s : str) : str := rstrip (lstrip s).

(** [s.split(sep)] for a one-character separator: never empty. *)
Fixpoint split_on (sep : N) (s : str) : list str :=
  match s with
  | [] => [[]]
  | c :: s' =>
      if N.eqb c sep then [] :: split_on sep s'
      else match split_on sep s' with
           | w :: ws => (c :: w) :: ws
           | [] => [[c]]
           end
  end.

(** [s.split()]: the maximal runs of non-whitespace. *)
Fixpoint split_ws_aux (cur : str) (s : str) : list str :=
  match s with
  | [] => match cur with [] => [] | _ => [rev cur] end
  | c :: s' =>
      if isspace c
      then match cur with
           | [] => split_ws_aux [] s'
           | _ => rev cur :: split_ws_aux [] s'
           end
      else split_ws_aux (c :: cur) s'
  end.

Definition split_ws (s : str) : list str := split_ws_aux [] s.

Fixpoint starts_with (p s : str) : bool :=
  match p, s with
  | [], _ => true
  | a :: p', b :: s' => N.eqb a b && starts_with p' s'
  | _ :: _, [] => false
  end.

(** [needle in hay] for strings. *)
Fixpoint contains (needle hay : str) : bool :=
  starts_with needle hay ||
  match hay with
  | [] => false
  | _ :: hay' => contains needle hay'
  end.

(** [str(n)] for an integer. *)
Definition digit_char (d : Z) : N := Z.to_N (48 + d).

Fixpoint nat_digits (fuel : nat) (n : Z) (acc : str) : str :=
  match fuel with
  | O => acc
  | S fuel' =>
      let acc' := digit_char (n mod 10) :: acc in
      if n <? 10 then acc' else nat_digits fuel' (n / 10) acc'
  end.

(** Decimal digits of a non-negative integer, most significant first. *)
Definition digits_of (n : Z) : str :=
  nat_digits (S (Z.to_nat (Z.log2 n))) n [].

Definition int_str (n : Z) : str :=
  if n <? 0 then lit "-" ++ digits_of (- n) else digits_of n.

(** The builtins whose result depends on the interpreter and not on the
    program: [str.lower] and [int(str)] ([None] when [int] raises
    [ValueError]), which follow the Unicode character database and the
    interpreter's limit on the digits of an integer literal, and [sum] on a
    non-empty list of floats, which adds from the left up to 3.11 and
    compensates the rounding errors from 3.12 on. The program is verified
    for every choice of the three. *)
Class PyText := {
  str_lower : str -> str;
  int_of_str : str -> option Z;
  py_sum : list float -> float
}.

(* ================================================================= *)
(** ** Exceptions *)

(** The classes of [Exception] the program can meet. [KeyboardInterrupt] and
    [SystemExit] are not among them: no handler of the program, each an
    [except Exception], catches those. *)
Inductive exn_class :=
| ImportError | IOError | ValueError | IndexError
| ZeroDivisionError | OverflowError | AttributeError | RuntimeError.

(** An exception: its class and [str(e)]. *)
Record exn := mk_exn { exn_kind : exn_class; exn_msg : str }.

Inductive result (A : Type) :=
| Ok (a : A)
| Raise (e : exn).

Arguments Ok {A} a.
Arguments Raise {A} e.

Definition bind {A B} (c : result A) (k : A -> result B) : result B :=
  match c with
  | Ok a => k a
  | Raise e => Raise e
  end.

Declare Scope py_scope.
Delimit Scope py_scope with py.
Notation "x <- c ;; k" := (bind c (fun x => k))
  (at level 61, c at next level, right associativity) : py_scope.
Local Open Scope py_scope.

Definition raise {A} (k : exn_class) (msg : string) : result A :=
  Raise (mk_exn k (lit msg)).

(** [except (IOError, ValueError)] *)
Definition is_io_or_value_error (e : exn) : bool :=
  match exn_kind e with
  | IOError | ValueError => true
  | _ => false
  end.

(** [int(s)]. The message of its [ValueError] quotes the literal; it is
    abridged here, as it only ever reaches the log. *)
Definition py_int `{PyText} (s : str) : result Z :=
  match int_of_str s with
  | Some z => Ok z
  | None => raise ValueError "invalid literal for int() with base 10"
  end.

(** [l[0]] *)
Definition first_item {A} (l : list A) : result A :=
  match l with
  | a :: _ => Ok a
  | [] => raise IndexError "list index out of range"
  end.

(* ================================================================= *)
(** ** Floats *)

Definition is_finite (x : float) : bool :=
  negb (PrimFloat.is_nan x) && negb (PrimFloat.is_infinity x).

(** The float nearest to [p / q] (ties to even) with sign [s], for
    [0 <= p] and [0 < q]; infinite on overflow. *)
Definition float_of_ratio (s : bool) (p q : Z) : float :=
  match p, q with
  | Zpos p', Zpos q' =>
      SF2Prim (SFdiv prec emax (S754_finite s p' 0) (S754_finite false q' 0))
  | _, _ => if s then neg_zero else zero
  end.

(** [float(n)] for an integer: [OverflowError] beyond the float range. *)
Definition float_of_int (n : Z) : result float :=
  let x := float_of_ratio (n <? 0) (Z.abs n) 1 in
  if PrimFloat.is_infinity x
  then raise OverflowError "int too large to convert to float"
  else Ok x.

(** [a / b] for floats. *)
Definition float_div (a b : float) : result float :=
  if PrimFloat.eqb b zero
  then raise ZeroDivisionError "float division by zero"
  else Ok (PrimFloat.div a b).

(** [a / n], a float by an integer. *)
Definition float_div_int (a : float) (n : Z) : result float :=
  b <- float_of_int n ;; float_div a b.

(** [n / b], an integer by a float. *)
Definition int_div_float (n : Z) (b : float) : result float :=
  a <- float_of_int n ;; float_div a b.

(** [a * n], a float by an integer. *)
Definition float_mul_int (a : float) (n : Z) : result float :=
  b <- float_of_int n ;; Ok (PrimFloat.mul a b).

(** [a / b] for integers: the correctly rounded quotient. *)
Definition int_truediv (a b : Z) : result float :=
  if b =? 0 then raise ZeroDivisionError "division by zero"
  else
    let x := float_of_ratio (xorb (a <? 0) (b <? 0)) (Z.abs a) (Z.abs b) in
    if PrimFloat.is_infinity x
    then raise OverflowError "integer division result too large for a float"
    else Ok x.

(** [n / d] rounded to the nearest integer, ties to even ([0 <= n], [0 < d]). *)
Definition div_half_even (n d : Z) : Z :=
  let q := n / d in
  let r := n mod d in
  match 2 * r ?= d with
  | Lt => q
  | Gt => q + 1
  | Eq => if Z.even q then q else q + 1
  end.

(** [c * m * 2^e] as a fraction. *)
Definition scaled (c : Z) (m : positive) (e : Z) : Z * Z :=
  if 0 <=? e then (c * Zpos m * 2 ^ e, 1) else (c * Zpos m, 2 ^ (- e)).

(** [round(x, 1)]: the exact value of [x] rounded to one decimal place (ties
    to even), then converted back to the nearest float. *)
Definition round1 (x : float) : float :=
  match Prim2SF x with
  | S754_finite s m e =>
      let '(n, d) := scaled 10 m e in
      float_of_ratio s (div_half_even n d) 10
  | _ => x
  end.

(** [round(x)]: the nearest integer, ties to even. *)
Definition py_round (x : float) : result Z :=
  match Prim2SF x with
  | S754_nan => raise ValueError "cannot convert float NaN to integer"
  | S754_infinity _ =>
      raise OverflowError "cannot convert float infinity to integer"
  | S754_zero _ => Ok 0
  | S754_finite s m e =>
      let '(n, d) := scaled 1 m e in
      let k := div_half_even n d in
      Ok (if s then - k else k)
  end.

Definition sign_str (s : bool) : str := if s then lit "-" else [].

Definition two_digits (n : Z) : str := [digit_char (n / 10); digit_char (n mod 10)].

(** [format(x, ".2f")] *)
Definition format_2f (x : float) : str :=
  match Prim2SF x with
  | S754_nan => lit "nan"
  | S754_infinity s => sign_str s ++ lit "inf"
  | S754_zero s => sign_str s ++ lit "0.00"
  | S754_finite s m e =>
      let '(n, d) := scaled 100 m e in
      let k := div_half_even n d in
      sign_str s ++ digits_of (k / 100) ++ lit "." ++ two_digits (k mod 100)
  end.

(** *** [repr(x)]: the shortest decimal string that reads back as [x] *)

(** [a * 10^k <= b] for integers [a], [b] and any integer [k]. *)
Definition scale_le (a k b : Z) : bool :=
  if 0 <=? k then a * 10 ^ k <=? b else a <=? b * 10 ^ (- k).

(** The rounding interval of the float [m * 2^e], in units of [2^(e-2)]:
    the reals that read back as this float lie between [lo] and [hi], the
    end points included when [m] is even. *)
Definition interval_lo (m : positive) (e : Z) : Z :=
  if (Zpos m =? 2 ^ 52) && (-1074 <? e) then 4 * Zpos m - 1 else 4 * Zpos m - 2.

Definition interval_hi (m : positive) : Z := 4 * Zpos m + 2.

Section Shortest.
(** The value is [v / den], the interval [lo / den .. hi / den]. *)
Variables (v lo hi den : Z) (closed : bool).

(** [c * 10^k] compared with a fraction [x / den]. *)
Definition dec_le_frac (c k x : Z) : bool := scale_le (c * den) k x.
Definition frac_le_dec (x c k : Z) : bool :=
  if 0 <=? k then x <=? c * 10 ^ k * den else x * 10 ^ (- k) <=? c * den.
Definition frac_lt_dec (x c k : Z) : bool :=
  if 0 <=? k then x <? c * 10 ^ k * den else x * 10 ^ (- k) <? c * den.

Definition in_interval (c k : Z) : bool :=
  if closed
  then frac_le_dec lo c k && dec_le_frac c k hi
  else frac_lt_dec lo c k && negb (frac_le_dec hi c k).

(** Lower [k] until [10^k <= v / den]. *)
Fixpoint exp10_down (fuel : nat) (k : Z) : Z :=
  match fuel with
  | O => k
  | S fuel' => if dec_le_frac 1 k v then k else exp10_down fuel' (k - 1)
  end.

(** Raise [k] while [10^(k+1) <= v / den]. *)
Fixpoint exp10_up (fuel : nat) (k : Z) : Z :=
  match fuel with
  | O => k
  | S fuel' => if dec_le_frac 1 (k + 1) v then exp10_up fuel' (k + 1) else k
  end.

(** The decimal exponent of the value: [10^k <= v / den < 10^(k+1)]. *)
Definition exp10 : Z :=
  let guess := (Z.log2 v - Z.log2 den) * 30103 / 100000 in
  exp10_up 700 (exp10_down 700 guess).

(** [floor (v / den / 10^k)] *)
Definition floor_scaled (k : Z) : Z :=
  if 0 <=? k then v / (den * 10 ^ k) else (v * 10 ^ (- k)) / den.

(** The distance from [c * 10^k] to the value, scaled by [den] and, when
    [k] is negative, by [10^(-k)]. *)
Definition dist2 (c k : Z) : Z :=
  if 0 <=? k then Z.abs (c * 10 ^ k * den - v)
  else Z.abs (c * den - v * 10 ^ (- k)).

(** The [n]-digit decimal nearest to the value that lies in the interval,
    if there is one, as [(c, k)] for [c * 10^k]. *)
Definition candidate (e10 : Z) (n : Z) : option (Z * Z) :=
  let k := e10 - (n - 1) in
  let c := floor_scaled k in
  match in_interval c k, in_interval (c + 1) k with
  | true, true =>
      match dist2 c k ?= dist2 (c + 1) k with
      | Lt => Some (c, k)
      | Gt => Some (c + 1, k)
      | Eq => if Z.even c then Some (c, k) else Some (c + 1, k)
      end
  | true, false => Some (c, k)
  | false, true => Some (c + 1, k)
  | false, false => None
  end.

Fixpoint shortest_from (fuel : nat) (e10 n : Z) : Z * Z :=
  match fuel with
  | O => (floor_scaled (e10 - (n - 1)), e10 - (n - 1))
  | S fuel' =>
      match candidate e10 n with
      | Some ck => ck
      | None => shortest_from fuel' e10 (n + 1)
      end
  end.

(** Seventeen digits always suffice for a binary64 float. *)
Definition shortest : Z * Z := shortest_from 17 exp10 1.
End Shortest.

(** Drop the trailing zeros of [c], counting them into the exponent. *)
Fixpoint strip_zeros (fuel : nat) (c k : Z) : Z * Z :=
  match fuel with
  | O => (c, k)
  | S fuel' =>
      if (c mod 10 =? 0) && (0 <? c) then strip_zeros fuel' (c / 10) (k + 1)
      else (c, k)
  end.

(** The shortest digits [ds] and the decimal point position [decpt] of a
    finite non-zero float: its value reads [0.ds * 10^decpt]. *)
Definition shortest_digits (m : positive) (e : Z) : str * Z :=
  let e2 := e - 2 in
  let den := if 0 <=? e2 then 1 else 2 ^ (- e2) in
  let up := if 0 <=? e2 then 2 ^ e2 else 1 in
  let '(c, k) :=
    shortest (4 * Zpos m * up) (interval_lo m e * up) (interval_hi m * up) den
             (Z.even (Zpos m)) in
  let '(c, k) := strip_zeros 20 c k in
  let ds := digits_of c in
  (ds, Z.of_nat (List.length ds) + k).

Definition zeros (n : Z) : str := repeat 48%N (Z.to_nat n).

Definition exponent_str (e : Z) : str :=
  (if e <? 0 then lit "-" else lit "+")
  ++ (if Z.abs e <? 10 then lit "0" else []) ++ digits_of (Z.abs e).

(** Lay the digits out the way [repr] does: plain notation while
    [-4 < decpt <= 16], exponent notation otherwise. *)
Definition layout_repr (ds : str) (decpt : Z) : str :=
  let n := Z.of_nat (List.length ds) in
  if (decpt <=? -4) || (16 <? decpt) then
    match ds with
    | d :: [] => [d] ++ lit "e" ++ exponent_str (decpt - 1)
    | d :: rest => [d] ++ lit "." ++ rest ++ lit "e" ++ exponent_str (decpt - 1)
    | [] => []
    end
  else if decpt <=? 0 then lit "0." ++ zeros (- decpt) ++ ds
  else if n <=? decpt then ds ++ zeros (decpt - n) ++ lit ".0"
  else firstn (Z.to_nat decpt) ds ++ lit "." ++ skipn (Z.to_nat decpt) ds.

(** [repr(x)], which is also [str(x)] and [format(x, "")]. *)
Definition float_repr (x : float) : str :=
  match Prim2SF x with
  | S754_nan => lit "nan"
  | S754_infinity s => sign_str s ++ lit "inf"
  | S754_zero s => sign_str s ++ lit "0.0"
  | S754_finite s m e =>
      let '(ds, decpt) := shortest_digits m e in
      sign_str s ++ layout_repr ds decpt
  end.

(* ================================================================= *)
(** ** [json.dumps] *)

Definition hex_digit (d : N) : N :=
  (if d <? 10 then 48 + d else 87 + d)%N.

(** ["%04x"] of a 16-bit unit. *)
Definition hex4 (u : N) : str :=
  [hex_digit (u / 4096 mod 16); hex_digit (u / 256 mod 16);
   hex_digit (u / 16 mod 16); hex_digit (u mod 16)]%N.

Definition u_escape (u : N) : str := lit "\u" ++ hex4 u.

(** The escape of one code point under [ensure_ascii=True], the default:
    everything outside printable ASCII is written as [\uXXXX], code points
    beyond the basic plane as a surrogate pair. (A backslash in a literal
    below is one character: these literals have no escapes of their own.) *)
Definition escape_char (c : N) : str :=
  (if c =? 34 then [92; 34]
   else if c =? 92 then lit "\\"
   else if c =? 10 then lit "\n"
   else if c =? 13 then lit "\r"
   else if c =? 9 then lit "\t"
   else if c =? 12 then lit "\f"
   else if c =? 8 then lit "\b"
   else if (32 <=? c) && (c <=? 126) then [c]
   else if c <? 65536 then u_escape c
   else
     let v := c - 65536 in
     u_escape (55296 + (v / 1024) mod 1024) ++ u_escape (56320 + v mod 1024))%N.

Definition quote : N := 34%N.

Definition json_string (s : str) : str :=
  [quote] ++ flat_map escape_char s ++ [quote].

Definition json_member (kv : str * str) : str :=
  json_string (fst kv) ++ lit ": " ++ json_string (snd kv).

Fixpoint json_members (items : list (str * str)) : str :=
  match items with
  | [] => []
  | [kv] => json_member kv
  | kv :: rest => json_member kv ++ lit ", " ++ json_members rest
  end.

(** [json.dumps(d, indent=None)] for a dict [d] of strings, in insertion
    order. *)
Definition json_dumps (items : list (str * str)) : str :=
  lit "{" ++ json_members items ++ lit "}".

(* ================================================================= *)
(** ** The environment of one run *)

(** One entry of a sensor group, [psutil._common.shwtemp]. *)
Record shwtemp := mk_shwtemp { label : str; current : option float }.

(** [psutil.virtual_memory()]: byte counts and the percentage in use. *)
Record svmem := mk_svmem { vm_total : Z; vm_used : Z; vm_percent : float }.

(** The sensor groups by name, in the dict's iteration order. *)
Definition temps_dict := list (str * list shwtemp).

(** The psutil module, when it can be imported: what each call the program
    makes returns or raises. *)
Record Psutil := mk_psutil {
  sensors_temperatures : result temps_dict;
  cpu_percent_percpu : result (list float);  (* cpu_percent(interval=1, percpu=True) *)
  cpu_percent_overall : result float;        (* cpu_percent(interval=0) *)
  virtual_memory : result svmem
}.

(** One [/sys/class/thermal/thermal_zone*] directory: what reading its
    [type] and [temp] files gives. *)
Record thermal_zone := mk_zone { type_file : result str; temp_file : result str }.

Record Env := mk_env {
  psutil : option Psutil;             (* [None]: [import psutil] fails *)
  thermal_zones : list thermal_zone;  (* in the order [glob.glob] lists them *)
  meminfo_file : result (list str);   (* the lines of [/proc/meminfo] *)
  clock : str                         (* [now().strftime("%H:%M:%S")] *)
}.

(** [import psutil] *)
Definition import_psutil (env : Env) : result Psutil :=
  match psutil env with
  | Some p => Ok p
  | None => raise ImportError "No module named 'psutil'"
  end.

(* ================================================================= *)
(** ** Readings *)

(** A figure that is either numeric or the string ["N/A"]. *)
Inductive value :=
| Num (x : float)
| NA.

Record MemoryReading := mk_mem { used_gb : value; total_gb : value; percent : value }.

Record LoadReading := mk_load { overall : option float; per_core : list float }.

Definition is_num (v : value) : bool :=
  match v with Num _ => true | NA => false end.

(** [str(v)] *)
Definition value_str (v : value) : str :=
  match v with
  | Num x => float_repr x
  | NA => lit "N/A"
  end.

(* ================================================================= *)
(** ** [get_cpu_temperature] *)

(** [0 < x < 150] *)
Definition in_range (x : float) : bool :=
  PrimFloat.ltb zero x && PrimFloat.ltb x 150%float.

(** [entry.current is not None and 0 < entry.current < 150] *)
Definition valid_entry (e : shwtemp) : bool :=
  match current e with
  | Some x => in_range x
  | None => false
  end.

(** One turn of the accumulation loop of lines 52-55 and 66-69 on the pair
    [(total_temp, count)]. *)
Definition accumulate_step (st : float * Z) (e : shwtemp) : float * Z :=
  let '(total_temp, count) := st in
  match current e with
  | Some x => if in_range x then (PrimFloat.add total_temp x, count + 1)
              else (total_temp, count)
  | None => (total_temp, count)
  end.

(** Lines 50-55 and 64-69: the total and the count of the valid entries.
    [total_temp] starts as the integer 0, which the first addition turns
    into a float. *)
Definition accumulate (entries : list shwtemp) : float * Z :=
  fold_left accumulate_step entries (zero, 0).

(** Lines 50-59 and 64-73: [Some t] when the group makes the function
    return [t], [None] when control goes on to the next group. *)
Definition group_average (entries : list shwtemp) : result (option float) :=
  let '(total_temp, count) := accumulate entries in
  if 0 <? count then
    avg_temp <- float_div_int total_temp count ;;
    Ok (Some (round1 avg_temp))
  else Ok None.

Definition dict_get {A} (key : str) (d : list (str * A)) : option A :=
  match find (fun kv => str_eqb (fst kv) key) d with
  | Some kv => Some (snd kv)
  | None => None
  end.

Definition cpu_keys : list str :=
  [lit "coretemp"; lit "k10temp"; lit "x86_pkg_temp"; lit "acpitz"].

(** Lines 46-59: the loop over [cpu_keys]. *)
Fixpoint priority_loop (temps : temps_dict) (keys : list str)
  : result (option float) :=
  match keys with
  | [] => Ok None
  | key :: keys' =>
      match dict_get key temps with
      | Some entries =>
          r <- group_average entries ;;
          match r with
          | Some t => Ok (Some t)
          | None => priority_loop temps keys'
          end
      | None => priority_loop temps keys'
      end
  end.

(** ['cpu' in name.lower() or 'core' in name.lower()] *)
Definition cpu_like `{PyText} (name : str) : bool :=
  contains (lit "cpu") (str_lower name) || contains (lit "core") (str_lower name).

(** Lines 62-73: the loop over [temps.items()]. *)
Fixpoint scan_loop `{PyText} (items : temps_dict) : result (option float) :=
  match items with
  | [] => Ok None
  | (name, entries) :: items' =>
      if cpu_like name then
        r <- group_average entries ;;
        match r with
        | Some t => Ok (Some t)
        | None => scan_loop items'
        end
      else scan_loop items'
  end.

(** Lines 38-73, the body of the first [try]: [Ok (Some t)] when it returns
    [t], [Ok None] when it runs to its end, [Raise e] when it raises. *)
Definition strategy_A `{PyText} (env : Env) : result (option float) :=
  p <- import_psutil env ;;
  temps <- sensors_temperatures p ;;
  match temps with
  | [] => Ok None
  | _ =>
      r <- priority_loop temps cpu_keys ;;
      match r with
      | Some t => Ok (Some t)
      | None => scan_loop temps
      end
  end.

Definition preferred_types : list str :=
  [lit "coretemp"; lit "k10temp"; lit "x86_pkg_temp"].

(** Lines 96-117, one turn of the loop over the thermal zones; the state is
    the pair of lists [(preferred_temps, fallback_temps)]. *)
Definition zone_step `{PyText} (st : list float * list float) (z : thermal_zone)
  : result (list float * list float) :=
  let '(preferred_temps, fallback_temps) := st in
  let body :=
    t <- type_file z ;;
    let sensor_type := str_lower (strip t) in
    s <- temp_file z ;;
    temp_milli <- py_int (strip s) ;;
    temp_celsius <- int_div_float temp_milli 1000%float ;;
    if negb (in_range temp_celsius) then Ok st
    else if existsb (fun pref => contains pref sensor_type) preferred_types
    then Ok (preferred_temps ++ [temp_celsius], fallback_temps)
    else if contains (lit "acpi") sensor_type
    then Ok (preferred_temps, fallback_temps ++ [temp_celsius])
    else Ok st
  in
  match body with
  | Raise e => if is_io_or_value_error e then Ok st else Raise e
  | Ok st' => Ok st'
  end.

Fixpoint zone_loop `{PyText} (st : list float * list float)
  (zones : list thermal_zone) : result (list float * list float) :=
  match zones with
  | [] => Ok st
  | z :: zones' => st' <- zone_step st z ;; zone_loop st' zones'
  end.

(** The floats of [l] added from the left, starting from 0: what the
    accumulation [total_temp += entry.current] of lines 54 and 68 computes. *)
Definition float_sum (l : list float) : float :=
  fold_left PrimFloat.add l zero.

(** Lines 82-126, the body of the second [try]. *)
Definition strategy_B `{PyText} (env : Env) : result value :=
  match thermal_zones env with
  | [] => Ok NA
  | zones =>
      st <- zone_loop ([], []) zones ;;
      let '(preferred_temps, fallback_temps) := st in
      let temps_to_use :=
        match preferred_temps with [] => fallback_temps | _ => preferred_temps end in
      match temps_to_use with
      | [] => Ok NA
      | _ =>
          avg_temp <- float_div_int (py_sum temps_to_use)
                                    (Z.of_nat (List.length temps_to_use)) ;;
          Ok (Num (round1 avg_temp))
      end
  end.

Definition get_cpu_temperature `{PyText} (env : Env) : value :=
  match strategy_A env with
  | Ok (Some t) => Num t
  | Ok None | Raise _ =>
      match strategy_B env with
      | Ok v => v
      | Raise _ => NA
      end
  end.

(* ================================================================= *)
(** ** [get_cpu_load] *)

Definition no_load : LoadReading := mk_load None [].

Definition get_cpu_load (env : Env) : LoadReading :=
  let body :=
    p <- import_psutil env ;;
    cpu_percent <- cpu_percent_percpu p ;;
    overall <- cpu_percent_overall p ;;
    Ok (mk_load (Some (round1 overall)) (map round1 cpu_percent))
  in
  match body with
  | Ok r => r
  | Raise _ => no_load
  end.

(* ================================================================= *)
(** ** [get_memory_usage] *)

Definition no_memory : MemoryReading := mk_mem NA NA NA.

(** Lines 166-177, the body of the first [try]. *)
Definition memory_from_psutil (env : Env) : result MemoryReading :=
  p <- import_psutil env ;;
  mem <- virtual_memory p ;;
  used_gb <- int_truediv (vm_used mem) (1024 ^ 3) ;;
  total_gb <- int_truediv (vm_total mem) (1024 ^ 3) ;;
  Ok (mk_mem (Num (round1 used_gb)) (Num (round1 total_gb))
             (Num (round1 (vm_percent mem)))).

(** Lines 189-193, one turn of the loop over the lines; the table is an
    association list whose newest binding comes first. *)
Definition meminfo_step `{PyText} (meminfo : list (str * Z)) (line : str)
  : result (list (str * Z)) :=
  match split_on 58 line with
  | [part0; part1] =>
      let key := strip part0 in
      value <- first_item (split_ws (strip part1)) ;;
      n <- py_int value ;;
      Ok ((key, n) :: meminfo)
  | _ => Ok meminfo
  end.

Fixpoint meminfo_loop `{PyText} (meminfo : list (str * Z)) (lines : list str)
  : result (list (str * Z)) :=
  match lines with
  | [] => Ok meminfo
  | line :: lines' =>
      meminfo' <- meminfo_step meminfo line ;; meminfo_loop meminfo' lines'
  end.

(** Lines 197-213: the reading computed from the parsed table. *)
Definition memory_from_table (meminfo : list (str * Z)) : result MemoryReading :=
  match dict_get (lit "MemTotal") meminfo, dict_get (lit "MemAvailable") meminfo with
  | Some total_kb, Some available_kb =>
      let used_kb := total_kb - available_kb in
      used_gb <- int_truediv used_kb (1024 ^ 2) ;;
      total_gb <- int_truediv total_kb (1024 ^ 2) ;;
      ratio <- int_truediv used_kb total_kb ;;
      percent <- float_mul_int ratio 100 ;;
      Ok (mk_mem (Num (round1 used_gb)) (Num (round1 total_gb))
                 (Num (round1 percent)))
  | _, _ => Ok no_memory
  end.

(** Lines 186-213, the body of the second [try]. *)
Definition memory_from_meminfo `{PyText} (env : Env) : result MemoryReading :=
  lines <- meminfo_file env ;;
  meminfo <- meminfo_loop [] lines ;;
  memory_from_table meminfo.

Definition get_memory_usage `{PyText} (env : Env) : MemoryReading :=
  match memory_from_psutil env with
  | Ok r => r
  | Raise _ =>
      match memory_from_meminfo env with
      | Ok r => r
      | Raise _ => no_memory
      end
  end.

(* ================================================================= *)
(** ** [format_waybar_output] *)

(** The dict the program serialises. *)
Record OutputRecord := mk_output {
  text : str; tooltip : str; class : str; alt : str
}.

Definition record_items (r : OutputRecord) : list (str * str) :=
  [(lit "text", text r); (lit "tooltip", tooltip r);
   (lit "class", class r); (lit "alt", alt r)].

(** ["°C"]: the degree sign is U+00B0. *)
Definition deg_c : str := [176%N; 67%N].

Definition newline : str := [10%N].

(** Lines 234-240. *)
Definition cpu_text_of (cpu_temp : value) (cpu_load : LoadReading) : str :=
  match cpu_temp with
  | Num t =>
      match overall cpu_load with
      | Some o => float_repr t ++ deg_c ++ lit " (" ++ float_repr o ++ lit "%)"
      | None => float_repr t ++ deg_c
      end
  | NA => lit "N/A"
  end.

(** Lines 242-248. *)
Definition mem_text_of (mem_info : MemoryReading) : result str :=
  match used_gb mem_info, total_gb mem_info, percent mem_info with
  | Num u, Num t, Num p =>
      used_gb_rounded <- py_round u ;;
      total_gb_rounded <- py_round t ;;
      Ok (int_str used_gb_rounded ++ lit "GB/" ++ int_str total_gb_rounded
          ++ lit "GB (" ++ float_repr p ++ lit "%)")
  | _, _, _ => Ok (lit "N/A")
  end.

(** Lines 260-261: the lines of the per-core block, numbered from [i]. *)
Fixpoint core_lines (i : Z) (loads : list float) : str :=
  match loads with
  | [] => []
  | load :: loads' =>
      lit "  Core " ++ int_str i ++ lit ": " ++ float_repr load ++ lit "%"
      ++ newline ++ core_lines (i + 1) loads'
  end.

(** Lines 258-261. *)
Definition load_block (cpu_load : LoadReading) : str :=
  match per_core cpu_load with
  | [] => []
  | loads => lit "CPU Load:" ++ newline ++ core_lines 0 loads
  end.

(** Lines 263-268, without the final newline. *)
Definition memory_line (mem_info : MemoryReading) : result str :=
  match used_gb mem_info, total_gb mem_info with
  | Num u, Num t =>
      used_mb <- float_mul_int u 1024 ;;
      total_mb <- float_mul_int t 1024 ;;
      Ok (lit "Memory: " ++ format_2f used_mb ++ lit "MB / " ++ format_2f total_mb
          ++ lit "MB (" ++ value_str (percent mem_info) ++ lit "%)")
  | _, _ => Ok (lit "Memory: N/A")
  end.

(** Lines 233-277: the dict [output]; [timestamp] is what the clock gives at
    line 253. *)
Definition waybar_record (timestamp : str) (cpu_temp : value)
  (mem_info : MemoryReading) (cpu_load : LoadReading) : result OutputRecord :=
  let cpu_text := cpu_text_of cpu_temp cpu_load in
  mem_text <- mem_text_of mem_info ;;
  let text := lit "CPU: " ++ cpu_text ++ lit " | MEM: " ++ mem_text in
  mem_line <- memory_line mem_info ;;
  let tooltip :=
    lit "Hardware Info" ++ newline
    ++ lit "CPU Temp: " ++ cpu_text ++ newline
    ++ load_block cpu_load
    ++ mem_line ++ newline
    ++ lit "Updated: " ++ timestamp in
  Ok (mk_output text tooltip (lit "hwinfo") (lit "hwinfo")).

Definition format_waybar_output (timestamp : str) (cpu_temp : value)
  (mem_info : MemoryReading) (cpu_load : LoadReading) : result str :=
  output <- waybar_record timestamp cpu_temp mem_info cpu_load ;;
  Ok (json_dumps (record_items output)).

(* ================================================================= *)
(** ** [main] *)

(** Lines 293-298. *)
Definition error_output (e : exn) : OutputRecord :=
  mk_output (lit "CPU: N/A | MEM: N/A") (lit "Error: " ++ exn_msg e)
            (lit "hwinfo-error") (lit "hwinfo-error").

(** What one run leaves behind: the lines printed on standard output and
    the exit status. *)
Record Outcome := mk_outcome { stdout : list str; exit_code : Z }.

(** Lines 285-288, the body of the [try], over arbitrary readers, each of
    which may raise: what line 289 prints, or the exception that escapes. *)
Definition try_body (timestamp : str) (temperature : result value)
  (memory : result MemoryReading) (load : result LoadReading) : result str :=
  cpu_temp <- temperature ;;
  mem_info <- memory ;;
  cpu_load <- load ;;
  format_waybar_output timestamp cpu_temp mem_info cpu_load.

(** Lines 284-300 over arbitrary readers. *)
Definition main_with (timestamp : str) (temperature : result value)
  (memory : result MemoryReading) (load : result LoadReading) : Outcome :=
  match try_body timestamp temperature memory load with
  | Ok output_json => mk_outcome [output_json] 0
  | Raise e => mk_outcome [json_dumps (record_items (error_output e))] 1
  end.

(** [main] with the program's own readers, none of which raises. The
    command line is parsed at line 282, before the [try]; the run is
    modelled from line 284 on, and [main_from] below adds line 282. *)
Definition main `{PyText} (env : Env) : Outcome :=
  main_with (clock env) (Ok (get_cpu_temperature env))
            (Ok (get_memory_usage env)) (Ok (get_cpu_load env)).

(** What [parse_arguments] (lines 18-27) makes of the command line: the
    namespace with the [--interval] it read, or the [SystemExit] that
    argparse raises itself (after an error in the arguments, or after
    [--help]), with its status and what it printed on standard output. *)
Inductive parsed_args :=
| Namespace (interval : Z)
| SystemExit (status : Z) (printed : list str).

(** Lines 282-300 over arbitrary readers. Line 282 stands before the [try]
    and [SystemExit] is no [Exception]: an exit of argparse ends the run at
    once. [args] is never read afterwards. *)
Definition main_from (args : parsed_args) (timestamp : str)
  (temperature : result value) (memory : result MemoryReading)
  (load : result LoadReading) : Outcome :=
  match args with
  | Namespace _ => main_with timestamp temperature memory load
  | SystemExit status printed => mk_outcome printed status
  end.

(* ================================================================= *)
(** ** ASCII text

    [str.lower] and [int] on ASCII text, and [sum] as CPython 3.11 computes
    it, for concrete runs: the files the program reads and the sensor names
    are ASCII. *)

Definition ascii_lower (s : str) : str :=
  map (fun c => if (65 <=? c) && (c <=? 90) then c + 32 else c)%N s.

(** Digits with single underscores between them, as [int] accepts. *)
Fixpoint ascii_digits (acc : Z) (after_digit : bool) (s : str) : option Z :=
  match s with
  | [] => if after_digit then Some acc else None
  | c :: s' =>
      if ((48 <=? c) && (c <=? 57))%N
      then ascii_digits (10 * acc + (Z.of_N c - 48)) true s'
      else if (c =? 95)%N && after_digit
      then match s' with
           | [] => None
           | _ => ascii_digits acc false s'
           end
      else None
  end.

Definition is_digit (c : N) : bool := ((48 <=? c) && (c <=? 57))%N.

(** [sys.get_int_max_str_digits()], at its default. *)
Definition int_max_str_digits : nat := 4300.

(** [int(s)]: a literal of more than 4300 digits is refused with a
    [ValueError], as is one that is no integer. *)
Definition ascii_int (s : str) : option Z :=
  if (int_max_str_digits <? List.length (filter is_digit s))%nat then None
  else
    match strip s with
    | 45%N :: s' => option_map Z.opp (ascii_digits 0 false s')
    | 43%N :: s' => ascii_digits 0 false s'
    | s' => ascii_digits 0 false s'
    end.

Definition ascii_text : PyText :=
  {| str_lower := ascii_lower; int_of_str := ascii_int; py_sum := float_sum |}.

(* ================================================================= *)
(** ** Reading the output back

    The reader's side of the output contract: a parser of JSON text
    (RFC 8259) for objects whose values are strings. It is not part of the
    program; the host that consumes the line plays this role. A JSON string
    denotes a sequence of UTF-16 code units. *)

(** The UTF-16 code units of a code point. *)
Definition utf16 (c : N) : list N :=
  (if c <? 65536 then [c]
   else let v := c - 65536 in
        [55296 + (v / 1024) mod 1024; 56320 + v mod 1024])%N.

Definition utf16_str (s : str) : list N := flat_map utf16 s.

Definition hex_value (c : N) : option N :=
  (if (48 <=? c) && (c <=? 57) then Some (c - 48)
   else if (97 <=? c) && (c <=? 102) then Some (c - 87)
   else if (65 <=? c) && (c <=? 70) then Some (c - 55)
   else None)%N.

Definition hex4_value (h1 h2 h3 h4 : N) : option N :=
  match hex_value h1, hex_value h2, hex_value h3, hex_value h4 with
  | Some a, Some b, Some c, Some d => Some (a * 4096 + b * 256 + c * 16 + d)%N
  | _, _, _, _ => None
  end.

(** The character a two-character escape stands for. *)
Definition simple_escape (e : N) : option N :=
  (if e =? 34 then Some 34          (* quote *)
   else if e =? 92 then Some 92     (* backslash *)
   else if e =? 47 then Some 47     (* slash *)
   else if e =? 98 then Some 8      (* b *)
   else if e =? 102 then Some 12    (* f *)
   else if e =? 110 then Some 10    (* n *)
   else if e =? 114 then Some 13    (* r *)
   else if e =? 116 then Some 9     (* t *)
   else None)%N.

Definition prepend {A} (us : list N) (r : option (list N * A)) : option (list N * A) :=
  match r with
  | Some (vs, rest) => Some (us ++ vs, rest)
  | None => None
  end.

(** The body of a string, after its opening quote: the code units it
    denotes and the text after its closing quote. *)
Fixpoint scan_string (s : str) : option (list N * str) :=
  match s with
  | [] => None
  | c :: rest =>
      if (c =? 34)%N then Some ([], rest)
      else if (c =? 92)%N then
        match rest with
        | [] => None
        | e :: rest' =>
            if (e =? 117)%N then
              match rest' with
              | h1 :: h2 :: h3 :: h4 :: rest'' =>
                  match hex4_value h1 h2 h3 h4 with
                  | Some u => prepend [u] (scan_string rest'')
                  | None => None
                  end
              | _ => None
              end
            else
              match simple_escape e with
              | Some u => prepend [u] (scan_string rest')
              | None => None
              end
        end
      else if (c <? 32)%N then None
      else prepend (utf16 c) (scan_string rest)
  end.

(** JSON whitespace. *)
Definition json_ws (c : N) : bool :=
  ((c =? 32) || (c =? 9) || (c =? 10) || (c =? 13))%N.

Fixpoint skip_ws (s : str) : str :=
  match s with
  | c :: s' => if json_ws c then skip_ws s' else s
  | [] => []
  end.

(** A quoted string, after optional whitespace. *)
Definition parse_string (s : str) : option (list N * str) :=
  match skip_ws s with
  | c :: s' => if (c =? 34)%N then scan_string s' else None
  | [] => None
  end.

(** [string : string], then the whitespace after it. *)
Definition parse_member (s : str) : option ((list N * list N) * str) :=
  match parse_string s with
  | Some (k, s1) =>
      match skip_ws s1 with
      | c :: s2 =>
          if (c =? 58)%N then
            match parse_string s2 with
            | Some (v, s3) => Some ((k, v), skip_ws s3)
            | None => None
            end
          else None
      | [] => None
      end
  | None => None
  end.

(** The members of a non-empty object up to its closing brace. *)
Fixpoint parse_members (fuel : nat) (s : str)
  : option (list (list N * list N) * str) :=
  match fuel with
  | O => None
  | S fuel' =>
      match parse_member s with
      | Some (kv, c :: s') =>
          if (c =? 44)%N then
            match parse_members fuel' s' with
            | Some (kvs, rest) => Some (kv :: kvs, rest)
            | None => None
            end
          else if (c =? 125)%N then Some ([kv], s')
          else None
      | _ => None
      end
  end.

Definition at_end (s : str) : bool :=
  match skip_ws s with [] => true | _ => false end.

(** A whole JSON text that is an object of strings. *)
Definition json_loads (s : str) : option (list (list N * list N)) :=
  match skip_ws s with
  | c :: s1 =>
      if (c =? 123)%N then
        match skip_ws s1 with
        | d :: s2 =>
            if (d =? 125)%N then (if at_end s2 then Some [] else None)
            else match parse_members (List.length s) s1 with
                 | Some (kvs, rest) => if at_end rest then Some kvs else None
                 | None => None
                 end
        | [] => None
        end
      else None
  | [] => None
  end.

(** The four-field schema: exactly the members [text], [tooltip], [class]
    and [alt], in any order. *)
Definition as_output_record (kvs : list (list N * list N)) : option OutputRecord :=
  if (List.length kvs =? 4)%nat then
    match dict_get (lit "text") kvs, dict_get (lit "tooltip") kvs,
          dict_get (lit "class") kvs, dict_get (lit "alt") kvs with
    | Some t, Some tip, Some c, Some a => Some (mk_output t tip c a)
    | _, _, _, _ => None
    end
  else None.

Definition parse_output (line : str) : option OutputRecord :=
  match json_loads line with
  | Some kvs => as_output_record kvs
  | None => None
  end.

(** The units a record's fields denote once written and read back. *)
Definition utf16_record (r : OutputRecord) : OutputRecord :=
  mk_output (utf16_str (text r)) (utf16_str (tooltip r))
            (utf16_str (class r)) (utf16_str (alt r)).

(** The units a member's key and value denote. *)
Definition units_of (kv : str * str) : list N * list N :=
  (utf16_str (fst kv), utf16_str (snd kv)).

(** [line] is one of the lines of the multi-line string [s]. *)
Definition has_line (line s : str) : bool :=
  existsb (str_eqb line) (split_on 10 s).

(* ================================================================= *)
(** ** Vocabulary of the properties *)

(** All three figures are numbers. *)
Definition memory_complete (r : MemoryReading) : Prop :=
  exists u t p, r = mk_mem (Num u) (Num t) (Num p).

(** The CPU-utilisation API is missing or one of its two calls raises. *)
Definition load_api_fails (env : Env) : Prop :=
  psutil env = None \/
  exists p, psutil env = Some p /\
            ((exists e, cpu_percent_percpu p = Raise e) \/
             (exists e, cpu_percent_overall p = Raise e)).

(** Some entry of the group passes the filter of lines 53 and 67. *)
Definition has_valid (entries : list shwtemp) : bool := existsb valid_entry entries.

(** The readings of a group that pass the filter of lines 53 and 67. *)
Definition valid_readings (entries : list shwtemp) : list float :=
  flat_map (fun e => match current e with
                     | Some x => if in_range x then [x] else []
                     | None => []
                     end) entries.

(** The group of the first name of [keys] that the dict holds. *)
Fixpoint first_present (temps : temps_dict) (keys : list str) : option (list shwtemp) :=
  match keys with
  | [] => None
  | key :: keys' =>
      match dict_get key temps with
      | Some entries => Some entries
      | None => first_present temps keys'
      end
  end.

(** Strategy A as claim C3 words it: the first present priority group alone
    settles the result (its rounded mean, or no result), and the scan runs
    only when no priority name is present. *)
Definition strategy_A_as_claimed `{PyText} (temps : temps_dict) : result (option float) :=
  match first_present temps cpu_keys with
  | Some entries => group_average entries
  | None => scan_loop temps
  end.

(** Every reading psutil reports lies outside (0, 150). *)
Definition sensor_readings_out_of_range (env : Env) : Prop :=
  forall p temps name entries e x,
    psutil env = Some p -> sensors_temperatures p = Ok temps ->
    In (name, entries) temps -> In e entries -> current e = Some x ->
    in_range x = false.

(** The reading of a thermal zone in degrees, as lines 101-103 compute it. *)
Definition zone_temperature `{PyText} (z : thermal_zone) : result float :=
  s <- temp_file z ;;
  temp_milli <- py_int (strip s) ;;
  int_div_float temp_milli 1000%float.

(** Every thermal-zone reading lies outside (0, 150). *)
Definition zone_readings_out_of_range `{PyText} (env : Env) : Prop :=
  forall z c, In z (thermal_zones env) -> zone_temperature z = Ok c ->
              in_range c = false.

(** The type string, as the program tests it at lines 110 and 112, names a
    sensor the fallback knows. *)
Definition known_type (sensor_type : str) : bool :=
  existsb (fun pref => contains pref sensor_type) preferred_types
  || contains (lit "acpi") sensor_type.

Definition unrecognized_zone `{PyText} (z : thermal_zone) : Prop :=
  forall t, type_file z = Ok t -> known_type (str_lower (strip t)) = false.

(** Strategy A did not return a temperature. *)
Definition reaches_strategy_B `{PyText} (env : Env) : Prop :=
  forall t, strategy_A env <> Ok (Some t).

(** The formatter rounds [used_gb] and [total_gb] to integers only when all
    three figures are numbers; that needs the two to be finite. *)
Definition formattable (m : MemoryReading) : bool :=
  match used_gb m, total_gb m, percent m with
  | Num u, Num t, Num _ => is_finite u && is_finite t
  | _, _, _ => true
  end.

(** The tooltip of a run in which every sensor is unavailable. *)
Definition unavailable_tooltip (timestamp : str) : str :=
  lit "Hardware Info" ++ newline ++ lit "CPU Temp: N/A" ++ newline
  ++ lit "Memory: N/A" ++ newline ++ lit "Updated: " ++ timestamp.

(** Every code point lies in the basic plane. *)
Definition is_bmp (s : str) : Prop := Forall (fun c => (c < 65536)%N) s.

(* ================================================================= *)
(** ** Sample worlds *)

(** A machine without psutil. *)
Definition no_psutil_env (zones : list thermal_zone) (meminfo : result (list str)) : Env :=
  mk_env None zones meminfo (lit "12:00:00").

Definition entry (x : float) : shwtemp := mk_shwtemp [] (Some x).

(** psutil reporting the given sensor groups. *)
Definition psutil_with_temps (temps : temps_dict) : Psutil :=
  mk_psutil (Ok temps) (Ok [12.5%float; 3.0%float]) (Ok 7.8%float)
            (Ok (mk_svmem 16384000000 8192000000 50.0%float)).

Definition env_with_temps (temps : temps_dict) (zones : list thermal_zone) : Env :=
  mk_env (Some (psutil_with_temps temps)) zones
         (raise IOError "No such file or directory") (lit "12:00:00").

(** The sensor groups of the specification's example. *)
Definition coretemp_and_acpitz : temps_dict :=
  [(lit "acpitz", [entry 50.0%float]);
   (lit "coretemp", [entry 45.0%float; entry 47.0%float])].

(** A stuck [coretemp], a live [k10temp], and a [cpu_thermal]. *)
Definition live_k10temp : temps_dict :=
  [(lit "cpu_thermal", [entry 60.0%float]); (lit "coretemp", [entry 200.0%float]);
   (lit "k10temp", [entry 45.0%float; mk_shwtemp [] None; entry 47.0%float])].

(** A package sensor stuck at 200 degrees next to a sane [cpu_thermal]. *)
Definition stuck_coretemp : temps_dict :=
  [(lit "coretemp", [entry 200.0%float]); (lit "cpu_thermal", [entry 50.0%float])].

(** A stuck [coretemp] next to a sane [acpitz]. *)
Definition stuck_coretemp_acpitz : temps_dict :=
  [(lit "acpitz", [entry 50.0%float]); (lit "coretemp", [entry 200.0%float])].

(** Readings that are all out of range, in psutil and in sysfs. *)
Definition out_of_range_temps : temps_dict :=
  [(lit "coretemp", [entry 200.0%float; mk_shwtemp [] None; entry (-5.0)%float]);
   (lit "cpu_thermal", [entry 0.0%float])].

Definition acpitz_zone : list thermal_zone :=
  [mk_zone (Ok (lit "acpitz")) (Ok (lit "45000"))].

(** A board whose only thermal zone is of type [cpu-thermal], at 45 degrees. *)
Definition cpu_thermal_zones : list thermal_zone :=
  [mk_zone (Ok (lit "cpu-thermal")) (Ok (lit "45000"))].

Definition out_of_range_zones : list thermal_zone :=
  [mk_zone (Ok (lit "x86_pkg_temp")) (Ok (lit "150000"));
   mk_zone (Ok (lit "acpitz")) (Ok (lit "0"));
   mk_zone (Ok (lit "acpitz")) (raise IOError "Input/output error")].

(** The two rows of [/proc/meminfo] the fallback needs, among others. *)
Definition meminfo_16GB : list str :=
  [lit "MemTotal:       16000000 kB"; lit "MemFree:         1000000 kB";
   lit "MemAvailable:    8000000 kB"; lit "Buffers:          200000 kB"].

Definition meminfo_without_available : list str :=
  [lit "MemTotal:       16000000 kB"; lit "MemFree:         1000000 kB"].

Definition memory_16GB : MemoryReading :=
  mk_mem (Num 7.6%float) (Num 15.3%float) (Num 50.0%float).

(** The record of a run without a CPU temperature or load, at noon, with
    the memory reading above. *)
Definition record_16GB : OutputRecord :=
  mk_output (lit "CPU: N/A | MEM: 8GB/15GB (50.0%)")
            (lit "Hardware Info" ++ newline ++ lit "CPU Temp: N/A" ++ newline
             ++ lit "Memory: 7782.40MB / 15667.20MB (50.0%)" ++ newline
             ++ lit "Updated: 12:00:00")
            (lit "hwinfo") (lit "hwinfo").

(** A reading whose [percent] alone is not a number. *)
Definition memory_without_percent : MemoryReading :=
  mk_mem (Num 7.6%float) (Num 15.3%float) NA.

(** A memory reading the formatter cannot round to integers. *)
Definition infinite_memory : MemoryReading :=
  mk_mem (Num infinity) (Num infinity) (Num 50.0%float).

(** ["CPU: 45.0°C (12.3%) | MEM: 8GB/15GB (50.0%)"] *)
Definition text_45_16GB : str :=
  lit "CPU: 45.0" ++ deg_c ++ lit " (12.3%) | MEM: 8GB/15GB (50.0%)".

(* ================================================================= *)
(** ** Vocabulary and sample worlds of the further properties *)

(** The run [env] with another listing of thermal zones. *)
Definition with_zones (env : Env) (zones : list thermal_zone) : Env :=
  mk_env (psutil env) zones (meminfo_file env) (clock env).

(** The run [env] with another content of [/proc/meminfo]. *)
Definition with_meminfo (env : Env) (lines : list str) : Env :=
  mk_env (psutil env) (thermal_zones env) (Ok lines) (clock env).

(** [readings] are the valid readings of one group of the sensors psutil
    reports in this run, a priority group or one with a cpu or core name. *)
Definition sensor_group_readings `{PyText} (env : Env) (readings : list float) : Prop :=
  exists p temps name entries,
    psutil env = Some p /\ sensors_temperatures p = Ok temps
    /\ In (name, entries) temps
    /\ (In name cpu_keys \/ cpu_like name = true)
    /\ readings = valid_readings entries.

(** The test of lines 110-112 on the type string, for the preferred bucket
    and for the fallback one. *)
Definition in_bucket (preferred : bool) (sensor_type : str) : bool :=
  let pref := existsb (fun pref => contains pref sensor_type) preferred_types in
  if preferred then pref else negb pref && contains (lit "acpi") sensor_type.

(** The readings of the listed zones that go to the preferred bucket
    ([preferred = true]) or to the fallback one: those inside (0, 150) of
    the zones of a matching type, in the order of the listing; a zone that
    cannot be read gives none. *)
Definition zone_readings `{PyText} (preferred : bool) (zones : list thermal_zone)
  : list float :=
  flat_map (fun z =>
              match type_file z with
              | Ok t =>
                  match zone_temperature z with
                  | Ok x =>
                      if in_range x && in_bucket preferred (str_lower (strip t))
                      then [x] else []
                  | Raise _ => []
                  end
              | Raise _ => []
              end) zones.

(** Line 120 on the zones of this run: the preferred readings, or the
    fallback ones when there is no preferred reading. *)
Definition zones_to_use `{PyText} (env : Env) : list float :=
  match zone_readings true (thermal_zones env) with
  | [] => zone_readings false (thermal_zones env)
  | _ => zone_readings true (thermal_zones env)
  end.

(** Lines 119-126: the reading the two buckets give once the loop is over. *)
Definition bucket_average `{PyText} (st : list float * list float) : result value :=
  let '(preferred_temps, fallback_temps) := st in
  let temps_to_use :=
    match preferred_temps with [] => fallback_temps | _ => preferred_temps end in
  match temps_to_use with
  | [] => Ok NA
  | _ =>
      avg_temp <- float_div_int (py_sum temps_to_use)
                                (Z.of_nat (List.length temps_to_use)) ;;
      Ok (Num (round1 avg_temp))
  end.

(** Reading the zone fails with an error the loop catches at line 115. *)
Definition zone_unreadable `{PyText} (z : thermal_zone) : Prop :=
  (exists e, type_file z = Raise e /\ is_io_or_value_error e = true)
  \/ (exists t e, type_file z = Ok t /\ zone_temperature z = Raise e
                  /\ is_io_or_value_error e = true).

(** Reading the zone fails with an error the loop does not catch. *)
Definition zone_fatal `{PyText} (z : thermal_zone) : Prop :=
  (exists e, type_file z = Raise e /\ is_io_or_value_error e = false)
  \/ (exists t e, type_file z = Ok t /\ zone_temperature z = Raise e
                  /\ is_io_or_value_error e = false).

(** A readable zone whose type names none of the preferred sensors. *)
Definition zone_not_preferred `{PyText} (z : thermal_zone) : Prop :=
  exists t c, type_file z = Ok t /\ zone_temperature z = Ok c
              /\ existsb (fun pref => contains pref (str_lower (strip t)))
                         preferred_types = false.

(** A row with exactly one colon whose value is blank or does not start with
    an integer. *)
Definition malformed_row `{PyText} (line : str) : Prop :=
  exists key value,
    split_on 58 line = [key; value]
    /\ (split_ws (strip value) = []
        \/ exists token rest, split_ws (strip value) = token :: rest
                              /\ int_of_str token = None).

(** The row binds [key] to [n]: it has one colon, [key] before it and a
    first token after it that reads as [n]. *)
Definition row_binds `{PyText} (line : str) (key : str) (n : Z) : Prop :=
  exists part0 part1 token rest,
    split_on 58 line = [part0; part1] /\ strip part0 = key
    /\ split_ws (strip part1) = token :: rest /\ int_of_str token = Some n.

(** The row does not bind [key]: it is passed over, or its key is another. *)
Definition row_spares `{PyText} (line : str) (key : str) : Prop :=
  forall part0 part1, split_on 58 line = [part0; part1] -> strip part0 <> key.

(** Printable ASCII. *)
Definition printable (c : N) : Prop := (32 <= c <= 126)%N.

Definition printableb (c : N) : bool := ((32 <=? c) && (c <=? 126))%N.

(** The text holds no newline. *)
Definition one_line (s : str) : Prop := Forall (fun c => c <> 10%N) s.

(** Line 261 without its newline: the tooltip line of core [i]. *)
Definition core_line (i : Z) (load : float) : str :=
  lit "  Core " ++ int_str i ++ lit ": " ++ float_repr load ++ lit "%".

Fixpoint core_line_list (i : Z) (loads : list float) : list str :=
  match loads with
  | [] => []
  | load :: loads' => core_line i load :: core_line_list (i + 1) loads'
  end.

(** The lines of the per-core block: none for an empty list, else a header
    and one line per core, numbered from 0. *)
Definition load_lines (loads : list float) : list str :=
  match loads with
  | [] => []
  | _ => lit "CPU Load:" :: core_line_list 0 loads
  end.

(** An [nvme] drive, an [acpitz] stuck at 0, a [CPU_Thermal] without a valid
    reading and a live [soc_cpu]. *)
Definition scan_before : temps_dict :=
  [(lit "acpitz", [entry 0.0%float]); (lit "nvme", [entry 40.0%float]);
   (lit "CPU_Thermal", [mk_shwtemp [] None; entry 151.0%float])].

Definition scan_temps : temps_dict :=
  scan_before ++ (lit "soc_cpu", [entry 55.0%float; entry 57.0%float])
              :: [(lit "gpu_core", [entry 70.0%float])].

Definition zone_of (type temp : string) : thermal_zone :=
  mk_zone (Ok (lit type)) (Ok (lit temp)).

(** A zone whose [type] file cannot be opened. *)
Definition vanished_zone : thermal_zone :=
  mk_zone (raise IOError "No such file or directory") (Ok (lit "45000")).

(** A zone whose [temp] file holds a 401-digit integer, too large for a
    float. *)
Definition overflowing_zone : thermal_zone :=
  mk_zone (Ok (lit "acpitz")) (Ok (lit "1" ++ zeros 400)).

Definition meminfo_zero_total : list str :=
  [lit "MemTotal:              0 kB"; lit "MemAvailable:          0 kB"].

Definition meminfo_blank_row : list str :=
  meminfo_16GB ++ [lit "HugePages_Total:"].

Definition meminfo_two_totals : list str :=
  [lit "MemTotal:        8000000 kB"; lit "MemTotal:       16000000 kB";
   lit "MemFree:         1000000 kB"].

Definition two_core_load : LoadReading :=
  mk_load (Some 12.3%float) [12.5%float; 3.0%float].

(** psutil reporting an [nvme] drive and a battery only. *)
Definition other_devices : temps_dict :=
  [(lit "nvme", [entry 40.0%float]); (lit "BAT0", [entry 30.0%float])].

(* ================================================================= *)
(** * Properties *)

(** ** The error monad *)

Lemma bind_ok {A B} (c : result A) (k : A -> result B) (b : B) :
  bind c k = Ok b -> exists a, c = Ok a /\ k a = Ok b.
Proof. destruct c as [a|e]; simpl; intros E; [eauto | discriminate]. Qed.

Lemma bind_ok_l {A B} (a : A) (k : A -> result B) : bind (Ok a) k = k a.
Proof. reflexivity. Qed.

(** A chain of binds that ends well went well at every step. *)
Ltac invert_binds E :=
  repeat (let x := fresh "v" in
          let Ex := fresh "Ev" in
          apply bind_ok in E as (x & Ex & E)).

(** ** [get_cpu_load] *)

Lemma import_psutil_some env p : psutil env = Some p -> import_psutil env = Ok p.
Proof. unfold import_psutil; intros ->; reflexivity. Qed.

Lemma import_psutil_none env :
  psutil env = None -> exists e, import_psutil env = Raise e.
Proof. unfold import_psutil; intros ->; eexists; reflexivity. Qed.

(** C7. [get_cpu_load] returns either a numeric [overall] together with the
    complete list of per-core figures, each rounded to one decimal place and
    one per figure the API reported, or, when the API is missing or raises,
    exactly [{overall: None, per_core: []}]; never a partial list. *)
Theorem get_cpu_load_complete_or_empty (env : Env) :
  (exists p cores o,
      psutil env = Some p /\ cpu_percent_percpu p = Ok cores /\
      cpu_percent_overall p = Ok o /\
      get_cpu_load env = mk_load (Some (round1 o)) (map round1 cores) /\
      List.length (per_core (get_cpu_load env)) = List.length cores)
  \/ (load_api_fails env /\ get_cpu_load env = no_load).
Proof.
  unfold get_cpu_load, load_api_fails.
  destruct (psutil env) as [p|] eqn:Hp.
  - rewrite (import_psutil_some _ Hp), bind_ok_l.
    destruct (cpu_percent_percpu p) as [cores|e1] eqn:Hc.
    + rewrite bind_ok_l.
      destruct (cpu_percent_overall p) as [o|e2] eqn:Ho.
      * left. exists p, cores, o. rewrite bind_ok_l. simpl.
        rewrite length_map. auto.
      * right. split; [| reflexivity].
        right. exists p. split; [reflexivity|]. right; eauto.
    + right. split; [| reflexivity].
      right. exists p. split; [reflexivity|]. left; eauto.
  - right. split; [now left |].
    destruct (import_psutil_none _ Hp) as [e ->]. reflexivity.
Qed.

(** ** [get_memory_usage] *)

Lemma memory_from_psutil_complete env r :
  memory_from_psutil env = Ok r -> memory_complete r.
Proof.
  unfold memory_from_psutil. intros E. invert_binds E.
  injection E as <-. red; eauto.
Qed.

Lemma memory_from_table_all_or_nothing tbl r :
  memory_from_table tbl = Ok r -> memory_complete r \/ r = no_memory.
Proof.
  unfold memory_from_table. intros E.
  destruct (dict_get (lit "MemTotal") tbl) as [total_kb|];
    [destruct (dict_get (lit "MemAvailable") tbl) as [available_kb|] |].
  - invert_binds E. injection E as <-. left; red; eauto.
  - injection E as <-. now right.
  - injection E as <-. now right.
Qed.

Lemma memory_from_table_lacking tbl :
  dict_get (lit "MemAvailable") tbl = None -> memory_from_table tbl = Ok no_memory.
Proof.
  unfold memory_from_table. intros ->.
  destruct (dict_get (lit "MemTotal") tbl); reflexivity.
Qed.

(** C2. Whatever psutil and [/proc/meminfo] do, the three figures
    [get_memory_usage] returns are all numbers or all ["N/A"]; in particular
    it returns all ["N/A"] when the psutil path fails and the parsed table
    has no [MemAvailable] key. *)
Theorem get_memory_usage_all_or_nothing `{PyText} (env : Env) :
  (memory_complete (get_memory_usage env) \/ get_memory_usage env = no_memory)
  /\ (forall e lines tbl,
        memory_from_psutil env = Raise e ->
        meminfo_file env = Ok lines ->
        meminfo_loop [] lines = Ok tbl ->
        dict_get (lit "MemAvailable") tbl = None ->
        get_memory_usage env = no_memory).
Proof.
  unfold get_memory_usage. split.
  - destruct (memory_from_psutil env) as [r|e] eqn:E1.
    + left. eapply memory_from_psutil_complete; eauto.
    + destruct (memory_from_meminfo env) as [r|e'] eqn:E2; [| now right].
      unfold memory_from_meminfo in E2.
      apply bind_ok in E2 as (lines & _ & E2).
      apply bind_ok in E2 as (tbl & _ & E2).
      eapply memory_from_table_all_or_nothing; eauto.
  - intros e lines tbl E1 E2 E3 E4. rewrite E1.
    unfold memory_from_meminfo. rewrite E2, bind_ok_l, E3, bind_ok_l.
    rewrite (memory_from_table_lacking _ E4). reflexivity.
Qed.

Lemma get_memory_usage_all_or_nothing_witness :
  let env := no_psutil_env [] (Ok meminfo_without_available) in
  let tbl := [(lit "MemFree", 1000000); (lit "MemTotal", 16000000)] in
  (memory_from_psutil env = Raise (mk_exn ImportError (lit "No module named 'psutil'"))
   /\ meminfo_file env = Ok meminfo_without_available
   /\ meminfo_loop (H := ascii_text) [] meminfo_without_available = Ok tbl
   /\ dict_get (lit "MemAvailable") tbl = None)
  /\ get_memory_usage (H := ascii_text) env = no_memory.
Proof.
  intros env tbl.
  assert (Hyp : memory_from_psutil env
                = Raise (mk_exn ImportError (lit "No module named 'psutil'"))
                /\ meminfo_file env = Ok meminfo_without_available
                /\ meminfo_loop (H := ascii_text) [] meminfo_without_available = Ok tbl
                /\ dict_get (lit "MemAvailable") tbl = None)
    by (repeat split; reflexivity).
  split; [exact Hyp |].
  destruct Hyp as (H1 & H2 & H3 & H4).
  exact (proj2 (get_memory_usage_all_or_nothing (H := ascii_text) env) _ _ _ H1 H2 H3 H4).
Defined.

(** C6. When psutil fails and the parsed meminfo table holds
    [MemTotal = 16000000] and [MemAvailable = 8000000] (kB),
    [get_memory_usage] returns exactly
    [{used_gb: 7.6, total_gb: 15.3, percent: 50.0}]: the used and total
    kibibytes divided by 1024^2, and the used share times 100, each rounded
    to one decimal place. *)
Theorem get_memory_usage_meminfo_16GB `{PyText} (env : Env) e lines tbl :
  memory_from_psutil env = Raise e ->
  meminfo_file env = Ok lines ->
  meminfo_loop [] lines = Ok tbl ->
  dict_get (lit "MemTotal") tbl = Some 16000000 ->
  dict_get (lit "MemAvailable") tbl = Some 8000000 ->
  get_memory_usage env = mk_mem (Num 7.6%float) (Num 15.3%float) (Num 50.0%float)
  /\ int_truediv (16000000 - 8000000) (1024 ^ 2) = Ok 7.62939453125%float
  /\ int_truediv 16000000 (1024 ^ 2) = Ok 15.2587890625%float
  /\ (ratio <- int_truediv (16000000 - 8000000) 16000000 ;; float_mul_int ratio 100)
     = Ok 50.0%float.
Proof.
  intros E1 E2 E3 E4 E5. split; [| repeat split; vm_compute; reflexivity].
  unfold get_memory_usage. rewrite E1.
  unfold memory_from_meminfo. rewrite E2, bind_ok_l, E3, bind_ok_l.
  unfold memory_from_table. rewrite E4, E5.
  vm_compute. reflexivity.
Qed.

Lemma get_memory_usage_meminfo_16GB_witness :
  let env := no_psutil_env [] (Ok meminfo_16GB) in
  let tbl := [(lit "Buffers", 200000); (lit "MemAvailable", 8000000);
              (lit "MemFree", 1000000); (lit "MemTotal", 16000000)] in
  (memory_from_psutil env = Raise (mk_exn ImportError (lit "No module named 'psutil'"))
   /\ meminfo_file env = Ok meminfo_16GB
   /\ meminfo_loop (H := ascii_text) [] meminfo_16GB = Ok tbl
   /\ dict_get (lit "MemTotal") tbl = Some 16000000
   /\ dict_get (lit "MemAvailable") tbl = Some 8000000)
  /\ get_memory_usage (H := ascii_text) env = memory_16GB.
Proof.
  intros env tbl.
  assert (Hyp : memory_from_psutil env
                = Raise (mk_exn ImportError (lit "No module named 'psutil'"))
                /\ meminfo_file env = Ok meminfo_16GB
                /\ meminfo_loop (H := ascii_text) [] meminfo_16GB = Ok tbl
                /\ dict_get (lit "MemTotal") tbl = Some 16000000
                /\ dict_get (lit "MemAvailable") tbl = Some 8000000)
    by (repeat split; reflexivity).
  split; [exact Hyp |].
  destruct Hyp as (H1 & H2 & H3 & H4 & H5).
  exact (proj1 (get_memory_usage_meminfo_16GB (H := ascii_text) env H1 H2 H3 H4 H5)).
Defined.

(** ** [format_waybar_output] on concrete readings *)

Lemma mem_text_16GB : mem_text_of memory_16GB = Ok (lit "8GB/15GB (50.0%)").
Proof. vm_compute. reflexivity. Qed.

Lemma memory_line_16GB :
  memory_line memory_16GB = Ok (lit "Memory: 7782.40MB / 15667.20MB (50.0%)").
Proof. vm_compute. reflexivity. Qed.

Lemma cpu_text_45 cores :
  cpu_text_of (Num 45.0%float) (mk_load (Some 12.3%float) cores)
  = lit "45.0" ++ deg_c ++ lit " (12.3%)".
Proof.
  unfold cpu_text_of. cbn [overall].
  replace (float_repr 45.0%float) with (lit "45.0") by (vm_compute; reflexivity).
  replace (float_repr 12.3%float) with (lit "12.3") by (vm_compute; reflexivity).
  reflexivity.
Qed.

Lemma waybar_record_text timestamp cpu_temp mem_info cpu_load r :
  waybar_record timestamp cpu_temp mem_info cpu_load = Ok r ->
  exists mem_text,
    mem_text_of mem_info = Ok mem_text /\
    text r = lit "CPU: " ++ cpu_text_of cpu_temp cpu_load ++ lit " | MEM: " ++ mem_text.
Proof.
  unfold waybar_record. intros E.
  apply bind_ok in E as (mem_text & Em & E).
  apply bind_ok in E as (mem_line & _ & E).
  injection E as <-. exists mem_text. split; [exact Em | reflexivity].
Qed.

(** ** Writing a record and reading it back *)

Lemma hex_value_hex_digit d : (d < 16)%N -> hex_value (hex_digit d) = Some d.
Proof.
  intros Hd.
  assert (In d [0;1;2;3;4;5;6;7;8;9;10;11;12;13;14;15]%N) as Hin.
  { assert (exists k, (k < 16)%nat /\ d = N.of_nat k) as (k & Hk & ->)
      by (exists (N.to_nat d); split; [lia | now rewrite N2Nat.id]).
    do 16 (destruct k as [|k]; [simpl; tauto |]). lia. }
  simpl in Hin.
  repeat (destruct Hin as [<- | Hin]; [reflexivity |]). contradiction.
Qed.

Lemma hex4_value_hex4 u h1 h2 h3 h4 :
  (u < 65536)%N -> hex4 u = [h1; h2; h3; h4] -> hex4_value h1 h2 h3 h4 = Some u.
Proof.
  intros Hu E. unfold hex4 in E. injection E as <- <- <- <-.
  unfold hex4_value.
  rewrite !hex_value_hex_digit by (apply N.mod_lt; discriminate).
  f_equal.
  zify. Z.to_euclidean_division_equations. lia.
Qed.

Lemma scan_u_escape u rest :
  (u < 65536)%N ->
  scan_string (u_escape u ++ rest) = prepend [u] (scan_string rest).
Proof.
  intros Hu. unfold u_escape.
  change (lit "\u" ++ hex4 u) with (92%N :: 117%N :: hex4 u).
  destruct (hex4 u) as [|h1 [|h2 [|h3 [|h4 [|]]]]] eqn:E; try discriminate.
  cbn [app scan_string N.eqb Pos.eqb].
  rewrite (hex4_value_hex4 Hu E). reflexivity.
Qed.

Lemma utf16_units_small c u : In u (utf16 c) -> (u < 65536)%N.
Proof.
  unfold utf16. destruct (N.ltb_spec c 65536); cbn [In].
  - intros [<-|[]]. assumption.
  - assert ((c - 65536) / 1024 mod 1024 < 1024)%N by (apply N.mod_lt; discriminate).
    assert ((c - 65536) mod 1024 < 1024)%N by (apply N.mod_lt; discriminate).
    intros [<-|[<-|[]]]; lia.
Qed.

Lemma scan_escape_char c rest :
  scan_string (escape_char c ++ rest) = prepend (utf16 c) (scan_string rest).
Proof.
  unfold escape_char.
  destruct (N.eqb_spec c 34) as [->|N34]; [reflexivity|].
  destruct (N.eqb_spec c 92) as [->|N92]; [reflexivity|].
  destruct (N.eqb_spec c 10) as [->|N10]; [reflexivity|].
  destruct (N.eqb_spec c 13) as [->|N13]; [reflexivity|].
  destruct (N.eqb_spec c 9) as [->|N9]; [reflexivity|].
  destruct (N.eqb_spec c 12) as [->|N12]; [reflexivity|].
  destruct (N.eqb_spec c 8) as [->|N8]; [reflexivity|].
  destruct (andb (32 <=? c) (c <=? 126))%N eqn:Hp.
  - apply andb_prop in Hp as [H1 H2].
    apply N.leb_le in H1. apply N.leb_le in H2.
    cbn [app scan_string].
    destruct (N.eqb_spec c 34); [contradiction|].
    destruct (N.eqb_spec c 92); [contradiction|].
    destruct (N.ltb_spec c 32); [lia|]. reflexivity.
  - unfold utf16. destruct (N.ltb_spec c 65536) as [Hs|Hb].
    + apply scan_u_escape; assumption.
    + rewrite <- app_assoc.
      rewrite !scan_u_escape by (apply (@utf16_units_small c); unfold utf16;
        destruct (N.ltb_spec c 65536); [lia | cbn [In]; auto]).
      destruct (scan_string rest) as [[vs r]|]; reflexivity.
Qed.

Lemma scan_string_escaped s rest :
  scan_string (flat_map escape_char s ++ quote :: rest) = Some (utf16_str s, rest).
Proof.
  induction s as [|c s IH]; [reflexivity|].
  cbn [flat_map]. rewrite <- app_assoc, scan_escape_char, IH. reflexivity.
Qed.

Lemma parse_string_json_string s rest :
  parse_string (json_string s ++ rest) = Some (utf16_str s, rest).
Proof.
  unfold parse_string, json_string.
  cbn [app]. rewrite <- app_assoc. cbn [app].
  change (skip_ws (quote :: ?x)) with (quote :: x).
  apply scan_string_escaped.
Qed.

Lemma parse_string_space s : parse_string (32%N :: s) = parse_string s.
Proof. reflexivity. Qed.

Lemma skip_ws_stop c s : json_ws c = false -> skip_ws (c :: s) = c :: s.
Proof. intros H. cbn [skip_ws]. rewrite H. reflexivity. Qed.

Lemma parse_member_json_member kv c rest :
  json_ws c = false ->
  parse_member (json_member kv ++ c :: rest) = Some (units_of kv, c :: rest).
Proof.
  intros Hc. unfold parse_member, json_member.
  rewrite <- app_assoc, parse_string_json_string.
  change (lit ": ") with [58%N; 32%N]. rewrite <- app_assoc.
  change ([58%N; 32%N] ++ ?x) with (58%N :: 32%N :: x).
  rewrite (@skip_ws_stop 58%N) by reflexivity.
  change (58 =? 58)%N with true. cbv iota.
  rewrite parse_string_space, parse_string_json_string.
  rewrite (skip_ws_stop _ _ Hc). reflexivity.
Qed.

Lemma json_members_cons kv kv' items :
  json_members (kv :: kv' :: items)
  = json_member kv ++ lit ", " ++ json_members (kv' :: items).
Proof. reflexivity. Qed.

Lemma json_member_starts kv rest :
  exists tail, json_member kv ++ rest = quote :: tail.
Proof. unfold json_member, json_string. cbn [app]. eexists; reflexivity. Qed.

Lemma parse_members_json_members items rest fuel :
  items <> [] -> (List.length items <= fuel)%nat ->
  parse_members fuel (json_members items ++ 125%N :: rest)
  = Some (map units_of items, rest).
Proof.
  revert fuel. induction items as [|kv items IH]; intros fuel Hne Hf; [congruence|].
  destruct fuel as [|fuel]; [simpl in Hf; lia|].
  destruct items as [|kv' items].
  - cbn [json_members parse_members map].
    rewrite parse_member_json_member by reflexivity. reflexivity.
  - rewrite json_members_cons. cbn [parse_members].
    change (lit ", ") with [44%N; 32%N]. rewrite <- !app_assoc. cbn [app].
    rewrite parse_member_json_member by reflexivity.
    cbn [N.eqb Pos.eqb].
    assert (E : parse_members fuel (32%N :: json_members (kv' :: items) ++ 125%N :: rest)
                = parse_members fuel (json_members (kv' :: items) ++ 125%N :: rest)).
    { destruct fuel; [reflexivity|]. cbn [parse_members].
      unfold parse_member, parse_string. reflexivity. }
    rewrite E, IH; [reflexivity | discriminate | simpl in *; lia].
Qed.

Lemma json_members_length items :
  (List.length items <= List.length (json_members items))%nat.
Proof.
  induction items as [|kv [|kv' items] IH].
  - simpl; lia.
  - destruct (json_member_starts kv []) as [tail E].
    cbn [json_members]. rewrite app_nil_r in E. rewrite E. simpl. lia.
  - rewrite json_members_cons.
    destruct (json_member_starts kv (lit ", " ++ json_members (kv' :: items))) as [tail E].
    rewrite !length_app. simpl in *. lia.
Qed.

Theorem json_loads_json_dumps items :
  json_loads (json_dumps items) = Some (map units_of items).
Proof.
  unfold json_loads, json_dumps.
  change (lit "{") with [123%N]. change (lit "}") with [125%N]. cbn [app].
  cbn [skip_ws json_ws N.eqb Pos.eqb orb].
  destruct items as [|kv items]; [reflexivity|].
  destruct (json_member_starts kv (match items with [] => [] | _ => lit ", " ++ json_members items end ++ [125%N]))
    as [tail E].
  assert (E' : json_members (kv :: items) ++ [125%N] = quote :: tail).
  { rewrite <- E. destruct items; [reflexivity|].
    rewrite json_members_cons, <- !app_assoc. reflexivity. }
  rewrite E'. cbn [skip_ws json_ws quote N.eqb Pos.eqb orb]. rewrite <- E'.
  rewrite parse_members_json_members; [reflexivity | discriminate |].
  pose proof (json_members_length (kv :: items)).
  cbn [List.length] in *. rewrite length_app. lia.
Qed.

Theorem parse_output_json_dumps r :
  parse_output (json_dumps (record_items r)) = Some (utf16_record r).
Proof.
  unfold parse_output. rewrite json_loads_json_dumps. reflexivity.
Qed.

(** ** The formatter on the sample readings *)

(** C9. For temperature 45.0, overall load 12.3 with any per-core list, and
    memory [{used_gb: 7.6, total_gb: 15.3, percent: 50.0}] the formatter
    produces a record whose [text] is
    ["CPU: 45.0°C (12.3%) | MEM: 8GB/15GB (50.0%)"], the two memory figures
    rounded to the integers 8 and 15; the same text is read back from the
    JSON it returns. *)
Theorem format_waybar_output_text_45 (timestamp : str) (cores : list float) :
  let cpu_load := mk_load (Some 12.3%float) cores in
  exists r js,
    waybar_record timestamp (Num 45.0%float) memory_16GB cpu_load = Ok r
    /\ text r = text_45_16GB
    /\ py_round 7.6%float = Ok 8 /\ py_round 15.3%float = Ok 15
    /\ format_waybar_output timestamp (Num 45.0%float) memory_16GB cpu_load = Ok js
    /\ option_map text (parse_output js) = Some text_45_16GB.
Proof.
  intros cpu_load.
  destruct (waybar_record timestamp (Num 45.0%float) memory_16GB cpu_load)
    as [r|e] eqn:E.
  - destruct (waybar_record_text _ _ _ _ E) as (mem_text & Em & Et).
    rewrite mem_text_16GB in Em. injection Em as <-.
    unfold cpu_load in Et. rewrite cpu_text_45 in Et.
    exists r, (json_dumps (record_items r)).
    unfold format_waybar_output. fold cpu_load. rewrite E, bind_ok_l.
    rewrite parse_output_json_dumps. cbn [option_map utf16_record text].
    rewrite Et.
    repeat split; try reflexivity.
  - exfalso. unfold waybar_record in E.
    rewrite mem_text_16GB, bind_ok_l, memory_line_16GB, bind_ok_l in E.
    discriminate.
Qed.

(** Line 263 tests only [used_gb] and [total_gb], where line 242 tests all
    three. Called on its own with a reading whose [percent] alone is not a
    number, the formatter writes the line
    ["Memory: 7782.40MB / 15667.20MB (N/A%)"] and no line ["Memory: N/A"],
    while the main text reads ["MEM: N/A"]. No run of [main] does so:
    [get_memory_usage] never returns such a reading. *)
Remark partial_reading_memory_line :
  exists r,
    waybar_record (lit "12:00:00") NA memory_without_percent no_load = Ok r
    /\ format_waybar_output (lit "12:00:00") NA memory_without_percent no_load
       = Ok (json_dumps (record_items r))
    /\ has_line (lit "Memory: 7782.40MB / 15667.20MB (N/A%)") (tooltip r) = true
    /\ has_line (lit "Memory: N/A") (tooltip r) = false
    /\ text r = lit "CPU: N/A | MEM: N/A".
Proof.
  eexists. split; [vm_compute; reflexivity |].
  repeat split; vm_compute; reflexivity.
Qed.

(** What line 263 does decide: the tooltip line is ["Memory: N/A"] exactly
    when [used_gb] or [total_gb] is not a number, whatever [percent] is. *)
Lemma memory_line_numeric u t p :
  memory_line (mk_mem (Num u) (Num t) p)
  = Ok (lit "Memory: " ++ format_2f (PrimFloat.mul u 1024%float) ++ lit "MB / "
        ++ format_2f (PrimFloat.mul t 1024%float) ++ lit "MB ("
        ++ value_str p ++ lit "%)").
Proof. reflexivity. Qed.

Lemma memory_line_unavailable mem_info :
  is_num (used_gb mem_info) && is_num (total_gb mem_info) = false ->
  memory_line mem_info = Ok (lit "Memory: N/A").
Proof.
  unfold memory_line.
  destruct (used_gb mem_info), (total_gb mem_info); simpl; intros E;
    try discriminate; reflexivity.
Qed.

(** ** [get_cpu_temperature]: the sensor groups *)

Lemma accumulate_step_invalid st e :
  valid_entry e = false -> accumulate_step st e = st.
Proof.
  unfold valid_entry, accumulate_step. destruct st as [t c].
  destruct (current e) as [x|]; [intros -> |]; reflexivity.
Qed.

Lemma accumulate_step_valid st e :
  valid_entry e = true -> snd (accumulate_step st e) = snd st + 1.
Proof.
  unfold valid_entry, accumulate_step. destruct st as [t c].
  destruct (current e) as [x|]; [intros -> | discriminate]; reflexivity.
Qed.

Lemma accumulate_step_count st e : snd st <= snd (accumulate_step st e).
Proof.
  destruct (valid_entry e) eqn:V.
  - rewrite (accumulate_step_valid _ _ V). lia.
  - rewrite (accumulate_step_invalid _ _ V). lia.
Qed.

Lemma fold_count_le entries : forall st,
  snd st <= snd (fold_left accumulate_step entries st).
Proof.
  induction entries as [|e entries IH]; intros st; cbn [fold_left]; [lia|].
  pose proof (accumulate_step_count st e). specialize (IH (accumulate_step st e)). lia.
Qed.

Lemma fold_no_valid entries : forall st,
  has_valid entries = false -> fold_left accumulate_step entries st = st.
Proof.
  unfold has_valid.
  induction entries as [|e entries IH]; intros st Hv; [reflexivity|].
  cbn [existsb] in Hv. apply orb_false_elim in Hv as [V Hv].
  cbn [fold_left]. rewrite (accumulate_step_invalid _ _ V). auto.
Qed.

Lemma fold_some_valid entries : forall st,
  has_valid entries = true -> snd st < snd (fold_left accumulate_step entries st).
Proof.
  unfold has_valid.
  induction entries as [|e entries IH]; intros st Hv; [discriminate|].
  cbn [existsb] in Hv. cbn [fold_left].
  destruct (valid_entry e) eqn:V.
  - pose proof (fold_count_le entries (accumulate_step st e)).
    rewrite (accumulate_step_valid _ _ V) in H. lia.
  - rewrite (accumulate_step_invalid _ _ V). apply IH. exact Hv.
Qed.

Lemma group_average_no_valid entries :
  has_valid entries = false -> group_average entries = Ok None.
Proof.
  intros Hv. unfold group_average.
  unfold accumulate. rewrite (fold_no_valid _ _ Hv). reflexivity.
Qed.

Lemma group_average_some_valid entries :
  has_valid entries = true ->
  group_average entries <> Ok None /\
  exists total_temp count,
    accumulate entries = (total_temp, count) /\ 0 < count /\
    group_average entries
    = (avg_temp <- float_div_int total_temp count ;; Ok (Some (round1 avg_temp))).
Proof.
  intros Hv. unfold group_average.
  pose proof (fold_some_valid entries (zero, 0) Hv) as Hc.
  fold (accumulate entries) in Hc.
  destruct (accumulate entries) as [total_temp count]. cbn [snd] in Hc.
  destruct (Z.ltb_spec 0 count) as [_|]; [| lia].
  split.
  - destruct (float_div_int total_temp count); discriminate.
  - exists total_temp, count. repeat split. exact Hc.
Qed.

Lemma priority_loop_first_valid temps entries key after : forall before,
  (forall k es, In k before -> dict_get k temps = Some es -> has_valid es = false) ->
  dict_get key temps = Some entries ->
  has_valid entries = true ->
  priority_loop temps (before ++ key :: after) = group_average entries.
Proof.
  intros before Hb Hk Hv.
  induction before as [|k before IH]; cbn [app priority_loop].
  - rewrite Hk.
    destruct (group_average_some_valid entries Hv) as [Hn _].
    destruct (group_average entries) as [[t|]|e]; [reflexivity | congruence | reflexivity].
  - destruct (dict_get k temps) as [es|] eqn:Ek.
    + rewrite (group_average_no_valid es) by (eapply Hb; [now left | exact Ek]).
      rewrite bind_ok_l. apply IH. intros; eapply Hb; [right|]; eauto.
    + apply IH. intros; eapply Hb; [right|]; eauto.
Qed.

Lemma priority_loop_none temps : forall keys,
  (forall k es, In k keys -> dict_get k temps = Some es -> has_valid es = false) ->
  priority_loop temps keys = Ok None.
Proof.
  induction keys as [|k keys IH]; intros Hb; [reflexivity|].
  cbn [priority_loop].
  destruct (dict_get k temps) as [es|] eqn:Ek.
  - rewrite (group_average_no_valid es) by (eapply Hb; [now left | exact Ek]).
    rewrite bind_ok_l. apply IH. intros; eapply Hb; [right|]; eauto.
  - apply IH. intros; eapply Hb; [right|]; eauto.
Qed.

Lemma strategy_A_unfold `{PyText} env p temps :
  psutil env = Some p -> sensors_temperatures p = Ok temps ->
  strategy_A env =
  match temps with
  | [] => Ok None
  | _ => r <- priority_loop temps cpu_keys ;;
         match r with Some t => Ok (Some t) | None => scan_loop temps end
  end.
Proof.
  intros Hp Ht. unfold strategy_A.
  rewrite (import_psutil_some _ Hp), bind_ok_l, Ht, bind_ok_l. reflexivity.
Qed.

Lemma fold_accumulate entries : forall total_temp count,
  fold_left accumulate_step entries (total_temp, count)
  = (fold_left PrimFloat.add (valid_readings entries) total_temp,
     count + Z.of_nat (List.length (valid_readings entries))).
Proof.
  induction entries as [|e entries IH]; intros total_temp count.
  - cbn. f_equal. lia.
  - cbn [fold_left valid_readings flat_map]. unfold accumulate_step at 2.
    destruct (current e) as [x|]; [destruct (in_range x) |]; rewrite IH;
      fold (valid_readings entries); cbn [app fold_left List.length];
      f_equal; lia.
Qed.

(** The loop computes the sum and the number of the valid readings. *)
Lemma accumulate_valid_readings entries :
  accumulate entries
  = (float_sum (valid_readings entries),
     Z.of_nat (List.length (valid_readings entries))).
Proof. unfold accumulate. rewrite fold_accumulate. reflexivity. Qed.

(** C3, as the code has it. In Strategy A, when none of the priority names
    is a key of the group map the result is that of the scan for a cpu- or
    core-named group; and whenever some present priority group has a valid
    reading, the result is settled by the first such group in priority order
    alone: the mean of its valid readings rounded to one decimal place,
    never a merely cpu- or core-named group. *)
Theorem strategy_A_priority `{PyText} (env : Env) p temps :
  psutil env = Some p ->
  sensors_temperatures p = Ok temps ->
  (forall before key after entries,
      cpu_keys = before ++ key :: after ->
      (forall k es, In k before -> dict_get k temps = Some es -> has_valid es = false) ->
      dict_get key temps = Some entries ->
      has_valid entries = true ->
      let readings := valid_readings entries in
      readings <> [] /\
      strategy_A env
      = (avg_temp <- float_div_int (float_sum readings) (Z.of_nat (List.length readings)) ;;
         Ok (Some (round1 avg_temp))))
  /\ ((forall k, In k cpu_keys -> dict_get k temps = None) ->
      strategy_A env = scan_loop temps).
Proof.
  intros Hp Ht. rewrite (strategy_A_unfold _ Hp Ht). split.
  - intros before key after entries Hs Hb Hk Hv readings.
    destruct (group_average_some_valid entries Hv)
      as (Hn & total_temp & count & Ea & Hc & Eg).
    rewrite accumulate_valid_readings in Ea. injection Ea as <- <-.
    fold readings in Hc, Eg. split.
    + intros E. rewrite E in Hc. simpl in Hc. lia.
    + rewrite Hs, (@priority_loop_first_valid temps entries key after before Hb Hk Hv).
      destruct temps; [discriminate|].
      rewrite <- Eg.
      destruct (group_average entries) as [[t|]|e]; [reflexivity | congruence | reflexivity].
  - intros Hnone. destruct temps as [|g temps']; [reflexivity|].
    rewrite priority_loop_none; [reflexivity|].
    intros k es Hin E. rewrite (Hnone k Hin) in E. discriminate.
Qed.

Lemma strategy_A_priority_witness :
  let env := env_with_temps live_k10temp [] in
  let entries := [entry 45.0%float; mk_shwtemp [] None; entry 47.0%float] in
  (psutil env = Some (psutil_with_temps live_k10temp)
   /\ sensors_temperatures (psutil_with_temps live_k10temp) = Ok live_k10temp
   /\ cpu_keys = [lit "coretemp"] ++ lit "k10temp" :: [lit "x86_pkg_temp"; lit "acpitz"]
   /\ dict_get (lit "coretemp") live_k10temp = Some [entry 200.0%float]
   /\ has_valid [entry 200.0%float] = false
   /\ dict_get (lit "k10temp") live_k10temp = Some entries
   /\ has_valid entries = true)
  /\ strategy_A (H := ascii_text) env = Ok (Some 46.0%float).
Proof.
  intros env entries. split; [repeat split; reflexivity |].
  refine (eq_trans
            (proj2 (proj1 (@strategy_A_priority ascii_text env
                             (psutil_with_temps live_k10temp) live_k10temp
                             eq_refl eq_refl)
                          [lit "coretemp"] (lit "k10temp")
                          [lit "x86_pkg_temp"; lit "acpitz"] entries
                          eq_refl _ eq_refl eq_refl))
            _).
  - intros k es [<- | []] E. vm_compute in E. injection E as <-. reflexivity.
  - vm_compute. reflexivity.
Defined.

(** C3 as stated fails where the first present priority group has no valid
    reading. With [coretemp] stuck at 200 degrees the claim has Strategy A
    give no result and Strategy B take over; the code goes on to the next
    priority group ([acpitz], 50 degrees) and, without one, to the scan
    ([cpu_thermal], 50 degrees). *)
Lemma stuck_priority_group_is_not_decisive :
  let env1 := env_with_temps stuck_coretemp_acpitz [] in
  let env2 := env_with_temps stuck_coretemp [] in
  (first_present stuck_coretemp_acpitz cpu_keys = Some [entry 200.0%float]
   /\ strategy_A_as_claimed (H := ascii_text) stuck_coretemp_acpitz = Ok None
   /\ strategy_A (H := ascii_text) env1 = Ok (Some 50.0%float)
   /\ strategy_A (H := ascii_text) env1
      <> strategy_A_as_claimed (H := ascii_text) stuck_coretemp_acpitz
   /\ get_cpu_temperature (H := ascii_text) env1 = Num 50.0%float)
  /\ (first_present stuck_coretemp cpu_keys = Some [entry 200.0%float]
      /\ strategy_A_as_claimed (H := ascii_text) stuck_coretemp = Ok None
      /\ strategy_A (H := ascii_text) env2 = Ok (Some 50.0%float)
      /\ strategy_A (H := ascii_text) env2
         <> strategy_A_as_claimed (H := ascii_text) stuck_coretemp
      /\ scan_loop (H := ascii_text) stuck_coretemp = Ok (Some 50.0%float)
      /\ get_cpu_temperature (H := ascii_text) env2 = Num 50.0%float).
Proof.
  intros env1 env2.
  repeat split; vm_compute; first [reflexivity | discriminate].
Qed.

(** ** [get_cpu_temperature]: the thermal zones *)

(** A zone leaves both buckets as they are unless its type is known and its
    reading is in range. *)
Lemma zone_step_unchanged `{PyText} st z st' :
  (forall t c, type_file z = Ok t -> zone_temperature z = Ok c ->
               in_range c = true -> known_type (str_lower (strip t)) = false) ->
  zone_step st z = Ok st' -> st' = st.
Proof.
  intros Hz. unfold zone_step. destruct st as [pref fb].
  destruct (type_file z) as [t|e] eqn:Et; cbn [bind].
  2:{ destruct (is_io_or_value_error e); congruence. }
  specialize (Hz t). unfold zone_temperature in Hz.
  destruct (temp_file z) as [s|e] eqn:Es; cbn [bind] in *.
  2:{ destruct (is_io_or_value_error e); congruence. }
  destruct (py_int (strip s)) as [m|e] eqn:Em; cbn [bind] in *.
  2:{ destruct (is_io_or_value_error e); congruence. }
  destruct (int_div_float m 1000%float) as [c|e] eqn:Ec; cbn [bind] in *.
  2:{ destruct (is_io_or_value_error e); congruence. }
  specialize (Hz c eq_refl eq_refl).
  destruct (in_range c); cbn [negb]; [| congruence].
  specialize (Hz eq_refl). unfold known_type in Hz.
  apply orb_false_elim in Hz as [-> ->]. congruence.
Qed.

Lemma zone_loop_unchanged `{PyText} zones : forall st st',
  (forall z, In z zones ->
     forall t c, type_file z = Ok t -> zone_temperature z = Ok c ->
                 in_range c = true -> known_type (str_lower (strip t)) = false) ->
  zone_loop st zones = Ok st' -> st' = st.
Proof.
  induction zones as [|z zones IH]; intros st st' Hz E; cbn [zone_loop] in E.
  - congruence.
  - apply bind_ok in E as (st1 & E1 & E).
    apply zone_step_unchanged in E1; [| apply Hz; now left]. subst st1.
    apply IH in E; [exact E |]. intros z' Hin. apply Hz. now right.
Qed.

Lemma strategy_B_unavailable `{PyText} env :
  (forall z, In z (thermal_zones env) ->
     forall t c, type_file z = Ok t -> zone_temperature z = Ok c ->
                 in_range c = true -> known_type (str_lower (strip t)) = false) ->
  strategy_B env = Ok NA \/ exists e, strategy_B env = Raise e.
Proof.
  intros Hz. unfold strategy_B.
  destruct (thermal_zones env) as [|z zones] eqn:Ez; [now left|].
  destruct (zone_loop ([], []) (z :: zones)) as [st|e] eqn:E.
  - apply zone_loop_unchanged in E; [| exact Hz]. subst st. now left.
  - right. eexists. reflexivity.
Qed.

Lemma get_cpu_temperature_unavailable `{PyText} env :
  reaches_strategy_B env ->
  (forall z, In z (thermal_zones env) ->
     forall t c, type_file z = Ok t -> zone_temperature z = Ok c ->
                 in_range c = true -> known_type (str_lower (strip t)) = false) ->
  get_cpu_temperature env = NA.
Proof.
  intros HA Hz. unfold get_cpu_temperature.
  assert (HB : match strategy_B env with Ok v => v | Raise _ => NA end = NA).
  { destruct (strategy_B_unavailable env Hz) as [-> | [e ->]]; reflexivity. }
  destruct (strategy_A env) as [[t|]|e] eqn:EA; [| exact HB | exact HB].
  exfalso. exact (HA t EA).
Qed.

Lemma dict_get_in {A} key (d : list (str * A)) v :
  dict_get key d = Some v -> exists name, In (name, v) d.
Proof.
  unfold dict_get. destruct (find _ d) as [[name v']|] eqn:E; [| discriminate].
  intros [= <-]. apply find_some in E as [Hin _]. eauto.
Qed.

Lemma str_eqb_refl s : str_eqb s s = true.
Proof. induction s as [|c s IH]; [reflexivity|]. cbn. rewrite N.eqb_refl, IH. reflexivity. Qed.

Lemma str_eqb_eq a : forall b, str_eqb a b = true -> a = b.
Proof.
  induction a as [|x a IH]; intros [|y b]; cbn; try discriminate; [reflexivity|].
  intros E. apply andb_prop in E as [Ex Ea].
  apply N.eqb_eq in Ex. rewrite Ex, (IH b Ea). reflexivity.
Qed.

Lemma has_valid_false entries :
  (forall e x, In e entries -> current e = Some x -> in_range x = false) ->
  has_valid entries = false.
Proof.
  intros Hall. unfold has_valid.
  destruct (existsb valid_entry entries) eqn:E; [| reflexivity].
  apply existsb_exists in E as (e & Hin & Hv). unfold valid_entry in Hv.
  destruct (current e) as [x|] eqn:Ec; [| discriminate].
  rewrite (Hall e x Hin Ec) in Hv. discriminate.
Qed.

Lemma scan_loop_none `{PyText} items :
  (forall name entries, In (name, entries) items -> has_valid entries = false) ->
  scan_loop items = Ok None.
Proof.
  induction items as [|[name entries] items IH]; intros Hall; [reflexivity|].
  cbn [scan_loop]. rewrite IH by (intros; eapply Hall; right; eauto).
  destruct (cpu_like name); [| reflexivity].
  rewrite (group_average_no_valid entries) by (eapply Hall; left; reflexivity).
  reflexivity.
Qed.

Lemma strategy_A_out_of_range `{PyText} env :
  sensor_readings_out_of_range env -> reaches_strategy_B env.
Proof.
  intros Hs t. unfold strategy_A.
  destruct (psutil env) as [p|] eqn:Hp.
  2:{ destruct (import_psutil_none _ Hp) as [e ->]. discriminate. }
  rewrite (import_psutil_some _ Hp), bind_ok_l.
  destruct (sensors_temperatures p) as [temps|e] eqn:Ht; [| discriminate].
  rewrite bind_ok_l.
  assert (Hall : forall name entries, In (name, entries) temps -> has_valid entries = false).
  { intros name entries Hin. apply has_valid_false.
    intros e x He Hc. exact (Hs p temps name entries e x Hp Ht Hin He Hc). }
  destruct temps as [|g temps']; [discriminate|].
  rewrite priority_loop_none, bind_ok_l, scan_loop_none; [discriminate | exact Hall |].
  intros k es _ E. apply dict_get_in in E as [name Hin]. eapply Hall; eauto.
Qed.

(** C5. Whenever every candidate reading, every entry of every sensor group
    psutil reports and every thermal-zone value, lies outside the open
    interval (0, 150), [get_cpu_temperature] returns ["N/A"]. *)
Theorem get_cpu_temperature_all_out_of_range `{PyText} (env : Env) :
  sensor_readings_out_of_range env ->
  zone_readings_out_of_range env ->
  get_cpu_temperature env = NA.
Proof.
  intros Hs Hz. apply get_cpu_temperature_unavailable.
  - apply strategy_A_out_of_range. exact Hs.
  - intros z Hin t c _ Ec Hr. rewrite (Hz z c Hin Ec) in Hr. discriminate.
Qed.

Lemma get_cpu_temperature_all_out_of_range_witness :
  let env := env_with_temps out_of_range_temps out_of_range_zones in
  (sensor_readings_out_of_range env
   /\ zone_readings_out_of_range (H := ascii_text) env)
  /\ get_cpu_temperature (H := ascii_text) env = NA.
Proof.
  intros env.
  assert (Hs : sensor_readings_out_of_range env).
  { intros p temps name entries e x Hp Ht Hin He Hc.
    injection Hp as <-. injection Ht as <-.
    cbn [out_of_range_temps In] in Hin.
    destruct Hin as [E | [E | []]]; injection E as <- <-;
      cbn [In] in He;
      repeat (destruct He as [<- | He];
              [cbn [current entry] in Hc;
               first [discriminate | injection Hc as <-; reflexivity] |]);
      contradiction. }
  assert (Hz : zone_readings_out_of_range (H := ascii_text) env).
  { intros z c Hin Ec. cbn [env env_with_temps thermal_zones out_of_range_zones In] in Hin.
    repeat (destruct Hin as [<- | Hin];
            [vm_compute in Ec; first [discriminate | injection Ec as <-; reflexivity] |]).
    contradiction. }
  split; [split; assumption |].
  exact (@get_cpu_temperature_all_out_of_range ascii_text env Hs Hz).
Defined.

(** A zone of unknown type with a valid reading is read and dropped. *)
Lemma zone_step_unknown_type `{PyText} st z t c :
  type_file z = Ok t -> known_type (str_lower (strip t)) = false ->
  zone_temperature z = Ok c -> in_range c = true ->
  zone_step st z = Ok st.
Proof.
  intros Et Hk Ec Hr. unfold zone_step. destruct st as [pref fb].
  rewrite Et. unfold zone_temperature in Ec.
  destruct (temp_file z) as [s|e]; [| discriminate]. cbn [bind] in Ec |- *.
  destruct (py_int (strip s)) as [m|e]; [| discriminate]. cbn [bind] in Ec |- *.
  rewrite Ec. cbn [bind]. rewrite Hr. cbn [negb].
  unfold known_type in Hk. apply orb_false_elim in Hk as [-> ->]. reflexivity.
Qed.

(** C10. In the thermal-zone fallback a zone whose type string, stripped and
    lower-cased as the program tests it, contains none of [coretemp],
    [k10temp], [x86_pkg_temp] and [acpi] goes to neither bucket, even with a
    valid reading; so whenever Strategy B is reached and every zone is of
    such a type, [get_cpu_temperature] returns ["N/A"] whatever the zones
    read. *)
Theorem unrecognized_zones_unavailable `{PyText} (env : Env) :
  reaches_strategy_B env ->
  (forall z, In z (thermal_zones env) -> unrecognized_zone z) ->
  (forall z st t c,
      In z (thermal_zones env) -> type_file z = Ok t ->
      zone_temperature z = Ok c -> in_range c = true ->
      zone_step st z = Ok st)
  /\ get_cpu_temperature env = NA.
Proof.
  intros HA Hu. split.
  - intros z st t c Hin Et Ec Hr.
    exact (zone_step_unknown_type st z Et (Hu z Hin t Et) Ec Hr).
  - apply get_cpu_temperature_unavailable; [exact HA|].
    intros z Hin t c Et _ _. exact (Hu z Hin t Et).
Qed.

Lemma unrecognized_zones_unavailable_witness :
  let env := no_psutil_env cpu_thermal_zones (raise IOError "No such file or directory") in
  (reaches_strategy_B (H := ascii_text) env
   /\ (forall z, In z (thermal_zones env) -> unrecognized_zone (H := ascii_text) z))
  /\ zone_temperature (H := ascii_text)
       (mk_zone (Ok (lit "cpu-thermal")) (Ok (lit "45000"))) = Ok 45.0%float
  /\ in_range 45.0%float = true
  /\ get_cpu_temperature (H := ascii_text) env = NA.
Proof.
  intros env.
  assert (HA : reaches_strategy_B (H := ascii_text) env).
  { intros t E. vm_compute in E. discriminate. }
  assert (Hu : forall z, In z (thermal_zones env) -> unrecognized_zone (H := ascii_text) z).
  { intros z [<- | []] t E. injection E as <-. reflexivity. }
  split; [split; assumption |].
  split; [reflexivity |]. split; [reflexivity |].
  exact (proj2 (@unrecognized_zones_unavailable ascii_text env HA Hu)).
Defined.

(** ** [main] *)

Lemma py_round_finite x : is_finite x = true -> exists k, py_round x = Ok k.
Proof.
  unfold is_finite, py_round, Prim2SF. intros Hf.
  apply andb_prop in Hf as [Hn Hi].
  apply negb_true_iff in Hn. apply negb_true_iff in Hi. rewrite Hn, Hi.
  destruct (is_zero x); [eexists; reflexivity|].
  destruct (Z.frexp x) as [r ex].
  destruct (shr_fexp _ _ _ _ _) as [shr e'].
  destruct (shr_m shr) as [|m|m]; [eexists; reflexivity | | eexists; reflexivity].
  destruct (scaled 1 m e') as [n d]. eexists; reflexivity.
Qed.

Lemma memory_line_ok mem_info : exists line, memory_line mem_info = Ok line.
Proof.
  unfold memory_line.
  destruct (used_gb mem_info), (total_gb mem_info); eexists; reflexivity.
Qed.

Lemma mem_text_ok mem_info :
  formattable mem_info = true -> exists mem_text, mem_text_of mem_info = Ok mem_text.
Proof.
  unfold formattable, mem_text_of.
  destruct (used_gb mem_info) as [u|], (total_gb mem_info) as [t|],
           (percent mem_info) as [p|]; intros Hf; try (eexists; reflexivity).
  apply andb_prop in Hf as [Hu Ht].
  destruct (py_round_finite u Hu) as [ku ->].
  destruct (py_round_finite t Ht) as [kt ->].
  eexists; reflexivity.
Qed.

Lemma waybar_record_ok timestamp cpu_temp mem_info cpu_load :
  formattable mem_info = true ->
  exists r, waybar_record timestamp cpu_temp mem_info cpu_load = Ok r
            /\ class r = lit "hwinfo" /\ alt r = lit "hwinfo".
Proof.
  intros Hf. unfold waybar_record.
  destruct (mem_text_ok mem_info Hf) as [mem_text ->].
  destruct (memory_line_ok mem_info) as [line ->].
  eexists. repeat split.
Qed.

Lemma hex_digit_not_newline d : hex_digit d <> 10%N.
Proof. unfold hex_digit. destruct (N.ltb_spec d 10); lia. Qed.

Lemma escape_char_no_newline c : ~ In 10%N (escape_char c).
Proof.
  assert (Hu : forall u, ~ In 10%N (u_escape u)).
  { intros u. unfold u_escape, hex4. cbn [lit map list_ascii_of_string app In N_of_ascii N.add N.mul].
    pose proof (hex_digit_not_newline (u / 4096 mod 16)).
    pose proof (hex_digit_not_newline (u / 256 mod 16)).
    pose proof (hex_digit_not_newline (u / 16 mod 16)).
    pose proof (hex_digit_not_newline (u mod 16)).
    intros [E|[E|[E|[E|[E|[E|[]]]]]]]; try discriminate; congruence. }
  unfold escape_char.
  repeat match goal with
         | |- context [if (c =? ?k)%N then _ else _] =>
             destruct (N.eqb_spec c k);
             [cbn; intros H; repeat (destruct H as [H|H]; [discriminate|]); contradiction |]
         end.
  destruct (andb _ _).
  - intros [E|[]]. congruence.
  - destruct (c <? 65536)%N; [apply Hu|].
    intros H. apply in_app_or in H as [H|H]; eapply Hu; eassumption.
Qed.

Lemma json_string_no_newline s : ~ In 10%N (json_string s).
Proof.
  unfold json_string. intros H.
  apply in_app_or in H as [[E|[]]|H]; [discriminate|].
  apply in_app_or in H as [H|[E|[]]]; [| discriminate].
  apply in_flat_map in H as (c & _ & H). exact (@escape_char_no_newline c H).
Qed.

Lemma json_member_no_newline kv : ~ In 10%N (json_member kv).
Proof.
  unfold json_member. intros H.
  apply in_app_or in H as [H|H]; [exact (@json_string_no_newline _ H)|].
  apply in_app_or in H as [[E|[E|[]]]|H]; try discriminate.
  exact (@json_string_no_newline _ H).
Qed.

Lemma json_members_no_newline items : ~ In 10%N (json_members items).
Proof.
  induction items as [|kv [|kv' items] IH].
  - intros [].
  - apply json_member_no_newline.
  - rewrite json_members_cons. intros H.
    apply in_app_or in H as [H|H]; [exact (@json_member_no_newline _ H)|].
    apply in_app_or in H as [[E|[E|[]]]|H]; try discriminate.
    exact (IH H).
Qed.

(** The text [json.dumps] returns fits on one line. *)
Lemma json_dumps_one_line items : ~ In 10%N (json_dumps items).
Proof.
  unfold json_dumps. intros H.
  apply in_app_or in H as [[E|[]]|H]; [discriminate|].
  apply in_app_or in H as [H|[E|[]]]; [| discriminate].
  exact (@json_members_no_newline _ H).
Qed.

Lemma try_body_json timestamp temperature memory load js :
  try_body timestamp temperature memory load = Ok js ->
  exists r, js = json_dumps (record_items r).
Proof.
  unfold try_body, format_waybar_output. intros E. invert_binds E.
  injection E as <-. eauto.
Qed.

(** Every run prints the dump of some record. *)
Lemma main_with_prints_record timestamp temperature memory load :
  exists r, stdout (main_with timestamp temperature memory load)
            = [json_dumps (record_items r)].
Proof.
  unfold main_with.
  destruct (try_body timestamp temperature memory load) as [js|e] eqn:E.
  - destruct (try_body_json _ _ _ _ E) as [r ->]. exists r. reflexivity.
  - eexists. reflexivity.
Qed.

(** C1. Whatever the three readers return or raise, and so for every
    combination of available and unavailable sensors and on the
    top-level-failure path, [main] writes exactly one line to standard
    output, and that line is JSON text that parses into the four-field
    record [{text, tooltip, class, alt}] of strings. *)
Theorem stdout_is_one_json_record :
  (forall timestamp temperature memory load,
      exists line r,
        stdout (main_with timestamp temperature memory load) = [line]
        /\ ~ In 10%N line
        /\ parse_output line = Some r)
  /\ (forall (T : PyText) env,
        exists line r,
          stdout (main env) = [line] /\ ~ In 10%N line /\ parse_output line = Some r).
Proof.
  assert (G : forall timestamp temperature memory load,
             exists line r,
               stdout (main_with timestamp temperature memory load) = [line]
               /\ ~ In 10%N line
               /\ parse_output line = Some r).
  { intros timestamp temperature memory load.
    destruct (main_with_prints_record timestamp temperature memory load) as [r E].
    exists (json_dumps (record_items r)), (utf16_record r).
    split; [exact E|]. split; [apply json_dumps_one_line|].
    apply parse_output_json_dumps. }
  split; [exact G|]. intros T env. apply G.
Qed.

Lemma main_unfold `{PyText} env :
  main env =
  match format_waybar_output (clock env) (get_cpu_temperature env)
                             (get_memory_usage env) (get_cpu_load env) with
  | Ok output_json => mk_outcome [output_json] 0
  | Raise e => mk_outcome [json_dumps (record_items (error_output e))] 1
  end.
Proof. reflexivity. Qed.

(** C8. If an error escapes the body of the [try], [main] still prints a
    well-formed JSON record with text ["CPU: N/A | MEM: N/A"], class and alt
    ["hwinfo-error"] and a tooltip that carries the error message, and exits
    with status 1; a run whose sensors merely report unavailable (more
    generally, any run whose memory figures the formatter can round) exits
    with status 0 and prints the normal record, of class ["hwinfo"]. *)
Theorem main_exit_codes :
  (forall timestamp temperature memory load e,
      try_body timestamp temperature memory load = Raise e ->
      let out := main_with timestamp temperature memory load in
      exit_code out = 1
      /\ stdout out = [json_dumps (record_items (error_output e))]
      /\ parse_output (json_dumps (record_items (error_output e)))
         = Some (mk_output (lit "CPU: N/A | MEM: N/A")
                           (lit "Error: " ++ utf16_str (exn_msg e))
                           (lit "hwinfo-error") (lit "hwinfo-error")))
  /\ (forall (T : PyText) env,
        formattable (get_memory_usage env) = true ->
        exit_code (main env) = 0
        /\ exists r,
             waybar_record (clock env) (get_cpu_temperature env)
                           (get_memory_usage env) (get_cpu_load env) = Ok r
             /\ stdout (main env) = [json_dumps (record_items r)]
             /\ class r = lit "hwinfo" /\ alt r = lit "hwinfo")
  /\ (forall (T : PyText) env,
        get_cpu_temperature env = NA ->
        get_memory_usage env = no_memory ->
        get_cpu_load env = no_load ->
        main env
        = mk_outcome
            [json_dumps (record_items
               (mk_output (lit "CPU: N/A | MEM: N/A") (unavailable_tooltip (clock env))
                          (lit "hwinfo") (lit "hwinfo")))] 0).
Proof.
  split; [| split].
  - intros timestamp temperature memory load e E out. subst out.
    unfold main_with. rewrite E. cbn [exit_code stdout].
    repeat split. rewrite parse_output_json_dumps. reflexivity.
  - intros T env Hf. rewrite main_unfold. unfold format_waybar_output.
    destruct (@waybar_record_ok (clock env) (get_cpu_temperature env)
                (get_memory_usage env) (get_cpu_load env) Hf) as (r & -> & Hc & Ha).
    cbn [bind exit_code stdout]. split; [reflexivity|].
    exists r. repeat split; assumption.
  - intros T env Et Em El. rewrite main_unfold, Et, Em, El. reflexivity.
Qed.

Lemma main_exit_codes_witness :
  let e := mk_exn OverflowError (lit "cannot convert float infinity to integer") in
  let env := no_psutil_env [] (raise IOError "No such file or directory") in
  (try_body (lit "12:00:00") (Ok NA) (Ok infinite_memory) (Ok no_load) = Raise e
   /\ formattable (get_memory_usage (H := ascii_text) env) = true)
  /\ exit_code (main_with (lit "12:00:00") (Ok NA) (Ok infinite_memory) (Ok no_load)) = 1
  /\ exit_code (main (H := ascii_text) env) = 0.
Proof.
  intros e env.
  assert (E : try_body (lit "12:00:00") (Ok NA) (Ok infinite_memory) (Ok no_load) = Raise e)
    by reflexivity.
  assert (Hf : formattable (get_memory_usage (H := ascii_text) env) = true)
    by reflexivity.
  split; [split; assumption |]. split.
  - exact (proj1 (proj1 main_exit_codes _ _ _ _ _ E)).
  - exact (proj1 (proj1 (proj2 main_exit_codes) ascii_text env Hf)).
Defined.

(** For text of the basic plane the record is read back as it was written. *)
Lemma utf16_str_bmp s : is_bmp s -> utf16_str s = s.
Proof.
  induction 1 as [|c s Hc _ IH]; [reflexivity|].
  unfold utf16_str in *. cbn [flat_map]. rewrite IH. unfold utf16.
  destruct (N.ltb_spec c 65536); [reflexivity | lia].
Qed.

Lemma parse_output_json_dumps_bmp r :
  is_bmp (text r) -> is_bmp (tooltip r) -> is_bmp (class r) -> is_bmp (alt r) ->
  parse_output (json_dumps (record_items r)) = Some r.
Proof.
  intros Ht Hp Hc Ha. rewrite parse_output_json_dumps. unfold utf16_record.
  rewrite !utf16_str_bmp by assumption. destruct r; reflexivity.
Qed.

(** ** The examples of the specification, run *)

Example repr_samples :
  float_repr 45.0%float = lit "45.0"
  /\ float_repr 0.1%float = lit "0.1"
  /\ float_repr (0.1 + 0.2)%float = lit "0.30000000000000004"
  /\ float_repr 1e16%float = lit "1e+16"
  /\ float_repr 1e-05%float = lit "1e-05"
  /\ float_repr (-0.0)%float = lit "-0.0"
  /\ float_repr 5e-324%float = lit "5e-324".
Proof. repeat split; vm_compute; reflexivity. Qed.

Example round_samples :
  round1 0.25%float = 0.2%float
  /\ round1 0.35%float = 0.3%float
  /\ round1 46.05%float = 46.0%float
  /\ round1 (-0.04)%float = (-0.0)%float
  /\ py_round 2.5%float = Ok 2
  /\ py_round 3.5%float = Ok 4
  /\ format_2f 0.125%float = lit "0.12"
  /\ format_2f 7782.4%float = lit "7782.40".
Proof. repeat split; vm_compute; reflexivity. Qed.

(** Sensor groups [{coretemp: [45.0, 47.0], acpitz: [50.0]}] give 46.0. *)
Example coretemp_is_preferred :
  get_cpu_temperature (H := ascii_text) (env_with_temps coretemp_and_acpitz [])
  = Num 46.0%float.
Proof. vm_compute. reflexivity. Qed.

(** A lone thermal zone of type [acpitz] at 45000 milli-degrees gives 45.0
    through the fallback bucket. *)
Example acpitz_zone_is_the_fallback :
  zone_loop (H := ascii_text) ([], []) acpitz_zone = Ok ([], [45.0%float])
  /\ get_cpu_temperature (H := ascii_text)
       (no_psutil_env acpitz_zone (raise IOError "No such file or directory"))
     = Num 45.0%float.
Proof. split; vm_compute; reflexivity. Qed.

(** With every source unavailable the text is ["CPU: N/A | MEM: N/A"] and the
    tooltip still ends in the [Updated:] line. *)
Example all_unavailable_record :
  waybar_record (lit "12:00:00") NA no_memory no_load
  = Ok (mk_output (lit "CPU: N/A | MEM: N/A") (unavailable_tooltip (lit "12:00:00"))
                  (lit "hwinfo") (lit "hwinfo"))
  /\ has_line (lit "Updated: 12:00:00") (unavailable_tooltip (lit "12:00:00")) = true.
Proof. split; vm_compute; reflexivity. Qed.

(* ================================================================= *)
(** * Further properties of the code *)

(** ** [get_cpu_temperature]: the scan and the result *)

Lemma scan_loop_first_valid `{PyText} name entries after : forall before,
  (forall n es, In (n, es) before -> cpu_like n = true -> has_valid es = false) ->
  cpu_like name = true ->
  has_valid entries = true ->
  scan_loop (before ++ (name, entries) :: after) = group_average entries.
Proof.
  intros before Hb Hn Hv.
  induction before as [|[n es] before IH]; cbn [app scan_loop].
  - rewrite Hn.
    destruct (group_average_some_valid entries Hv) as [Hne _].
    destruct (group_average entries) as [[t|]|e]; [reflexivity | congruence | reflexivity].
  - destruct (cpu_like n) eqn:En.
    + rewrite (group_average_no_valid es) by (eapply Hb; [left; reflexivity | exact En]).
      rewrite bind_ok_l. apply IH. intros; eapply Hb; [right|]; eauto.
    + apply IH. intros; eapply Hb; [right|]; eauto.
Qed.

Lemma scan_loop_no_valid `{PyText} items :
  (forall n es, In (n, es) items -> cpu_like n = true -> has_valid es = false) ->
  scan_loop items = Ok None.
Proof.
  induction items as [|[n es] items IH]; intros Hall; [reflexivity|].
  cbn [scan_loop]. rewrite IH by (intros; eapply Hall; [right|]; eauto).
  destruct (cpu_like n) eqn:En; [| reflexivity].
  rewrite (group_average_no_valid es) by (eapply Hall; [left; reflexivity | exact En]).
  reflexivity.
Qed.

Lemma group_average_readings entries :
  has_valid entries = true ->
  valid_readings entries <> [] /\
  group_average entries
  = (avg_temp <- float_div_int (float_sum (valid_readings entries))
                               (Z.of_nat (List.length (valid_readings entries))) ;;
     Ok (Some (round1 avg_temp))).
Proof.
  intros Hv.
  destruct (group_average_some_valid entries Hv) as (_ & total_temp & count & Ea & Hc & Eg).
  rewrite accumulate_valid_readings in Ea. injection Ea as <- <-. split.
  - intros E. rewrite E in Hc. simpl in Hc. lia.
  - exact Eg.
Qed.

Lemma strategy_A_falls_to_scan `{PyText} env p temps :
  psutil env = Some p -> sensors_temperatures p = Ok temps ->
  (forall k es, In k cpu_keys -> dict_get k temps = Some es -> has_valid es = false) ->
  strategy_A env = scan_loop temps.
Proof.
  intros Hp Ht Hprio. rewrite (strategy_A_unfold _ Hp Ht).
  destruct temps as [|g temps]; [reflexivity|].
  rewrite (@priority_loop_none (g :: temps) cpu_keys Hprio). reflexivity.
Qed.

(** X1. When no priority group that is present has a valid reading, Strategy
    A is decided by the scan of lines 62-73: it returns the mean, rounded to
    one decimal place, of the valid readings of the first group, in the
    dict's iteration order, whose lower-cased name contains [cpu] or [core]
    and that has a valid reading, whatever comes after it. *)
Theorem strategy_A_scan `{PyText} (env : Env) p before name entries after :
  psutil env = Some p ->
  sensors_temperatures p = Ok (before ++ (name, entries) :: after) ->
  (forall k es, In k cpu_keys ->
                dict_get k (before ++ (name, entries) :: after) = Some es ->
                has_valid es = false) ->
  (forall n es, In (n, es) before -> cpu_like n = true -> has_valid es = false) ->
  cpu_like name = true ->
  has_valid entries = true ->
  let readings := valid_readings entries in
  readings <> [] /\
  strategy_A env
  = (avg_temp <- float_div_int (float_sum readings) (Z.of_nat (List.length readings)) ;;
     Ok (Some (round1 avg_temp))).
Proof.
  intros Hp Ht Hprio Hb Hn Hv readings.
  destruct (group_average_readings entries Hv) as [Hne Eg]. split; [exact Hne|].
  rewrite (strategy_A_falls_to_scan _ Hp Ht Hprio).
  rewrite (@scan_loop_first_valid _ name entries after before Hb Hn Hv). exact Eg.
Qed.

Lemma valid_readings_in_range entries :
  Forall (fun x => in_range x = true) (valid_readings entries).
Proof.
  induction entries as [|e entries IH]; [constructor|].
  cbn [valid_readings flat_map]. fold (valid_readings entries).
  destruct (current e) as [x|]; [| exact IH].
  destruct (in_range x) eqn:Hx; [| exact IH].
  constructor; assumption.
Qed.

Lemma group_average_mean entries t :
  group_average entries = Ok (Some t) ->
  let readings := valid_readings entries in
  readings <> []
  /\ exists avg_temp,
       float_div_int (float_sum readings) (Z.of_nat (List.length readings)) = Ok avg_temp
       /\ t = round1 avg_temp.
Proof.
  intros E readings. destruct (has_valid entries) eqn:Hv.
  - destruct (group_average_readings entries Hv) as [Hne Eg].
    rewrite Eg in E. apply bind_ok in E as (avg & Ea & E). injection E as <-.
    split; [exact Hne |]. exists avg. split; [exact Ea | reflexivity].
  - rewrite (group_average_no_valid entries Hv) in E. discriminate.
Qed.

Lemma dict_get_key {A} key (d : list (str * A)) v :
  dict_get key d = Some v -> In (key, v) d.
Proof.
  unfold dict_get. destruct (find _ d) as [[name v']|] eqn:E; [| discriminate].
  intros [= <-]. apply find_some in E as [Hin Hk]. cbn [fst] in Hk.
  apply str_eqb_eq in Hk. subst name. exact Hin.
Qed.

Lemma priority_loop_source temps t : forall keys,
  priority_loop temps keys = Ok (Some t) ->
  exists key entries,
    In key keys /\ In (key, entries) temps /\ group_average entries = Ok (Some t).
Proof.
  induction keys as [|k keys IH]; cbn [priority_loop]; intros E; [discriminate|].
  assert (Hrest : priority_loop temps keys = Ok (Some t) ->
                  exists key entries,
                    In key (k :: keys) /\ In (key, entries) temps
                    /\ group_average entries = Ok (Some t)).
  { intros E'. destruct (IH E') as (key & es & Hk & Hin & Eg).
    exists key, es. repeat split; [right; exact Hk | exact Hin | exact Eg]. }
  destruct (dict_get k temps) as [es|] eqn:Ed; [| auto].
  destruct (group_average es) as [[t'|]|e] eqn:Eg; cbn [bind] in E.
  - injection E as <-. exists k, es.
    repeat split; [left; reflexivity | apply dict_get_key; exact Ed | exact Eg].
  - auto.
  - discriminate.
Qed.

Lemma scan_loop_source `{PyText} t : forall items,
  scan_loop items = Ok (Some t) ->
  exists name entries,
    In (name, entries) items /\ cpu_like name = true
    /\ group_average entries = Ok (Some t).
Proof.
  induction items as [|[n es] items IH]; cbn [scan_loop]; intros E; [discriminate|].
  assert (Hrest : scan_loop items = Ok (Some t) ->
                  exists name entries,
                    In (name, entries) ((n, es) :: items) /\ cpu_like name = true
                    /\ group_average entries = Ok (Some t)).
  { intros E'. destruct (IH E') as (name & es' & Hin & Hc & Eg).
    exists name, es'. repeat split; [right; exact Hin | exact Hc | exact Eg]. }
  destruct (cpu_like n) eqn:En; [| auto].
  destruct (group_average es) as [[t'|]|e] eqn:Eg; cbn [bind] in E.
  - injection E as <-. exists n, es.
    repeat split; [left; reflexivity | exact En | exact Eg].
  - auto.
  - discriminate.
Qed.

Lemma strategy_A_source `{PyText} env t :
  strategy_A env = Ok (Some t) ->
  exists entries,
    sensor_group_readings env (valid_readings entries)
    /\ group_average entries = Ok (Some t).
Proof.
  unfold strategy_A, import_psutil. intros E.
  destruct (psutil env) as [p|] eqn:Hp; [| discriminate]. cbn [bind] in E.
  destruct (sensors_temperatures p) as [temps|e] eqn:Ht; [| discriminate].
  cbn [bind] in E.
  destruct temps as [|g temps]; [discriminate|].
  destruct (priority_loop (g :: temps) cpu_keys) as [[t'|]|e] eqn:Ep; cbn [bind] in E.
  - injection E as <-.
    destruct (priority_loop_source _ _ Ep) as (key & es & Hk & Hin & Eg).
    exists es. split; [| exact Eg].
    exists p, (g :: temps), key, es.
    repeat split; [exact Hp | exact Ht | exact Hin | left; exact Hk].
  - destruct (scan_loop_source _ E) as (name & es & Hin & Hc & Eg).
    exists es. split; [| exact Eg].
    exists p, (g :: temps), name, es.
    repeat split; [exact Hp | exact Ht | exact Hin | right; exact Hc].
  - discriminate.
Qed.

(** ** [get_cpu_temperature]: the zone loop *)

Lemma zone_readings_in_range `{PyText} preferred zones :
  Forall (fun x => in_range x = true) (zone_readings preferred zones).
Proof.
  induction zones as [|z zones IH]; [constructor|].
  unfold zone_readings. cbn [flat_map]. fold (zone_readings preferred zones).
  apply Forall_app. split; [| exact IH].
  destruct (type_file z) as [t|e]; [| constructor].
  destruct (zone_temperature z) as [x|e]; [| constructor].
  destruct (in_range x) eqn:Hx; cbn [andb]; [| constructor].
  destruct (in_bucket preferred _); constructor; [exact Hx | constructor].
Qed.

(** One turn of the loop appends the zone's reading to the bucket of its
    type, when it has one. *)
Lemma zone_step_readings `{PyText} st z st' :
  zone_step st z = Ok st' ->
  st' = (fst st ++ zone_readings true [z], snd st ++ zone_readings false [z]).
Proof.
  unfold zone_step, zone_readings, zone_temperature, in_bucket.
  destruct st as [pref fb]. cbn [fst snd flat_map]. rewrite !app_nil_r.
  destruct (type_file z) as [t|e]; cbn [bind].
  2:{ destruct (is_io_or_value_error e); intros [= <-]; rewrite !app_nil_r; reflexivity. }
  destruct (temp_file z) as [s|e]; cbn [bind].
  2:{ destruct (is_io_or_value_error e); intros [= <-]; rewrite !app_nil_r; reflexivity. }
  destruct (py_int (strip s)) as [m|e]; cbn [bind].
  2:{ destruct (is_io_or_value_error e); intros [= <-]; rewrite !app_nil_r; reflexivity. }
  destruct (int_div_float m 1000%float) as [c|e]; cbn [bind].
  2:{ destruct (is_io_or_value_error e); intros [= <-]; rewrite !app_nil_r; reflexivity. }
  destruct (in_range c) eqn:Hc; cbn [negb andb];
    [| intros [= <-]; rewrite !app_nil_r; reflexivity].
  destruct (existsb _ preferred_types); cbn [negb andb].
  - intros [= <-]. rewrite app_nil_r. reflexivity.
  - destruct (contains _ _); intros [= <-]; rewrite !app_nil_r; reflexivity.
Qed.

(** The loop fills the two buckets with the readings of the listing. *)
Lemma zone_loop_readings `{PyText} zones : forall st st',
  zone_loop st zones = Ok st' ->
  st' = (fst st ++ zone_readings true zones, snd st ++ zone_readings false zones).
Proof.
  induction zones as [|z zones IH]; cbn [zone_loop]; intros st st' E.
  - injection E as <-. cbn [zone_readings flat_map]. rewrite !app_nil_r.
    destruct st; reflexivity.
  - apply bind_ok in E as (st1 & E1 & E).
    rewrite (IH _ _ E), (zone_step_readings _ _ E1). cbn [fst snd].
    rewrite <- !app_assoc. unfold zone_readings. cbn [flat_map].
    rewrite !app_nil_r. reflexivity.
Qed.

Lemma strategy_B_buckets `{PyText} env :
  strategy_B env = (st <- zone_loop ([], []) (thermal_zones env) ;; bucket_average st).
Proof.
  unfold strategy_B. destruct (thermal_zones env) as [|z zones]; [reflexivity|].
  destruct (zone_loop ([], []) (z :: zones)) as [[pref fb]|e]; reflexivity.
Qed.

Lemma strategy_B_source `{PyText} env t :
  strategy_B env = Ok (Num t) ->
  let readings := zones_to_use env in
  readings <> []
  /\ exists avg_temp,
       float_div_int (py_sum readings) (Z.of_nat (List.length readings)) = Ok avg_temp
       /\ t = round1 avg_temp.
Proof.
  rewrite strategy_B_buckets. intros E. cbv zeta.
  apply bind_ok in E as (st & El & E).
  apply zone_loop_readings in El. cbn [fst snd app] in El. subst st.
  change (match zones_to_use env with
          | [] => Ok NA
          | _ :: _ =>
              avg_temp <- float_div_int (py_sum (zones_to_use env))
                                        (Z.of_nat (List.length (zones_to_use env))) ;;
              Ok (Num (round1 avg_temp))
          end = Ok (Num t)) in E.
  destruct (zones_to_use env) as [|x xs]; [discriminate|].
  split; [discriminate |].
  apply bind_ok in E as (avg & Ea & E). injection E as <-.
  exists avg. split; [exact Ea | reflexivity].
Qed.

Lemma zones_to_use_in_range `{PyText} env :
  Forall (fun x => in_range x = true) (zones_to_use env).
Proof.
  unfold zones_to_use.
  destruct (zone_readings true (thermal_zones env)) eqn:E;
    [| rewrite <- E]; apply zone_readings_in_range.
Qed.

(** X2. A number that [get_cpu_temperature] returns is the sum of a list of
    readings divided by its length and rounded to one decimal place, where
    the list is not empty and is taken from the sources of this run: either
    the readings inside (0, 150) of one sensor group that psutil reports, a
    priority group or one with a cpu or core name (added by the loop of
    lines 52-55 and 66-69), or the readings inside (0, 150) of the thermal
    zones of a preferred type, of the [acpi] zones when no preferred zone
    has one (added by [sum]). A reading outside (0, 150) is in neither. *)
Theorem get_cpu_temperature_rounded_mean `{PyText} (env : Env) t :
  get_cpu_temperature env = Num t ->
  exists readings avg_temp,
    readings <> []
    /\ Forall (fun x => in_range x = true) readings
    /\ t = round1 avg_temp
    /\ ((sensor_group_readings env readings
         /\ float_div_int (float_sum readings) (Z.of_nat (List.length readings))
            = Ok avg_temp)
        \/ (readings = zones_to_use env
            /\ float_div_int (py_sum readings) (Z.of_nat (List.length readings))
               = Ok avg_temp)).
Proof.
  unfold get_cpu_temperature. intros E.
  assert (HB : match strategy_B env with Ok v => v | Raise _ => NA end = Num t ->
               exists readings avg_temp,
                 readings <> []
                 /\ Forall (fun x => in_range x = true) readings
                 /\ t = round1 avg_temp
                 /\ ((sensor_group_readings env readings
                      /\ float_div_int (float_sum readings)
                                       (Z.of_nat (List.length readings)) = Ok avg_temp)
                     \/ (readings = zones_to_use env
                         /\ float_div_int (py_sum readings)
                                          (Z.of_nat (List.length readings))
                            = Ok avg_temp))).
  { destruct (strategy_B env) as [v|e] eqn:EB; [| discriminate].
    intros ->. destruct (strategy_B_source _ EB) as (Hne & avg & Ea & Et).
    exists (zones_to_use env), avg.
    repeat split; [exact Hne | apply zones_to_use_in_range | exact Et |].
    right. split; [reflexivity | exact Ea]. }
  destruct (strategy_A env) as [[t'|]|e] eqn:EA; auto.
  injection E as <-.
  destruct (strategy_A_source _ EA) as (es & Hs & Eg).
  destruct (group_average_mean _ Eg) as (Hne & avg & Ea & Et).
  exists (valid_readings es), avg.
  repeat split; [exact Hne | apply valid_readings_in_range | exact Et |].
  left. split; [exact Hs | exact Ea].
Qed.

Lemma zone_loop_app `{PyText} zs1 zs2 : forall st,
  zone_loop st (zs1 ++ zs2) = (st' <- zone_loop st zs1 ;; zone_loop st' zs2).
Proof.
  induction zs1 as [|z zs1 IH]; intros st; cbn [app zone_loop]; [reflexivity|].
  destruct (zone_step st z) as [st1|e]; cbn [bind]; [apply IH | reflexivity].
Qed.

Lemma zone_step_unreadable `{PyText} st z :
  zone_unreadable z -> zone_step st z = Ok st.
Proof.
  unfold zone_step, zone_unreadable, zone_temperature. destruct st as [pref fb].
  intros [(e & -> & He) | (t & e & -> & Ez & He)]; cbn [bind].
  - rewrite He. reflexivity.
  - destruct (temp_file z) as [s|e1]; cbn [bind] in *.
    2:{ injection Ez as ->. rewrite He. reflexivity. }
    destruct (py_int (strip s)) as [m|e1]; cbn [bind] in *.
    2:{ injection Ez as ->. rewrite He. reflexivity. }
    rewrite Ez. cbn [bind]. rewrite He. reflexivity.
Qed.

Lemma get_cpu_temperature_zones `{PyText} env zones zones' :
  zone_loop ([], []) zones = zone_loop ([], []) zones' ->
  get_cpu_temperature (with_zones env zones)
  = get_cpu_temperature (with_zones env zones').
Proof.
  intros E. unfold get_cpu_temperature.
  change (strategy_A (with_zones env zones)) with (strategy_A env).
  change (strategy_A (with_zones env zones')) with (strategy_A env).
  rewrite !strategy_B_buckets. cbn [with_zones thermal_zones]. rewrite E. reflexivity.
Qed.

(** X3. A thermal zone whose [type] or [temp] file cannot be read, or whose
    [temp] file does not hold an integer, is skipped and nothing more: the
    result is the one the listing without that zone gives. *)
Theorem unreadable_zone_is_skipped `{PyText} (env : Env) zs1 z zs2 :
  zone_unreadable z ->
  get_cpu_temperature (with_zones env (zs1 ++ z :: zs2))
  = get_cpu_temperature (with_zones env (zs1 ++ zs2)).
Proof.
  intros Hz. apply get_cpu_temperature_zones.
  rewrite !zone_loop_app. cbn [zone_loop].
  destruct (zone_loop ([], []) zs1) as [st|e]; cbn [bind]; [| reflexivity].
  rewrite (zone_step_unreadable st Hz). reflexivity.
Qed.

Lemma zone_step_fatal `{PyText} st z :
  zone_fatal z -> exists e, zone_step st z = Raise e.
Proof.
  unfold zone_step, zone_fatal, zone_temperature. destruct st as [pref fb].
  intros [(e & -> & He) | (t & e & -> & Ez & He)]; cbn [bind].
  - rewrite He. eexists; reflexivity.
  - destruct (temp_file z) as [s|e1]; cbn [bind] in *.
    2:{ injection Ez as ->. rewrite He. eexists; reflexivity. }
    destruct (py_int (strip s)) as [m|e1]; cbn [bind] in *.
    2:{ injection Ez as ->. rewrite He. eexists; reflexivity. }
    rewrite Ez. cbn [bind]. rewrite He. eexists; reflexivity.
Qed.

Lemma zone_loop_fatal `{PyText} z zones : forall st,
  In z zones -> zone_fatal z -> exists e, zone_loop st zones = Raise e.
Proof.
  induction zones as [|z' zones IH]; intros st Hin Hz; [destruct Hin|].
  cbn [zone_loop]. destruct Hin as [-> | Hin].
  - destruct (zone_step_fatal st Hz) as [e ->]. eexists; reflexivity.
  - destruct (zone_step st z') as [st1|e]; cbn [bind]; [| eexists; reflexivity].
    apply IH; assumption.
Qed.

(** X4. The zone loop catches only [IOError] and [ValueError]. If reading
    some zone fails with any other exception (a [temp] value too large for a
    float, say), Strategy B yields ["N/A"] even when other zones hold valid
    readings. *)
Theorem fatal_zone_loses_all_readings `{PyText} (env : Env) z :
  reaches_strategy_B env ->
  In z (thermal_zones env) ->
  zone_fatal z ->
  get_cpu_temperature env = NA.
Proof.
  intros HA Hin Hz. unfold get_cpu_temperature.
  assert (HB : exists e, strategy_B env = Raise e).
  { rewrite strategy_B_buckets.
    destruct (@zone_loop_fatal _ z (thermal_zones env) ([], []) Hin Hz) as [e ->].
    eexists; reflexivity. }
  destruct HB as [e ->].
  destruct (strategy_A env) as [[t|]|e'] eqn:EA; [| reflexivity | reflexivity].
  exfalso. exact (HA t EA).
Qed.

(** What a zone adds to the buckets does not depend on what they hold. *)
Lemma zone_step_shift `{PyText} pref fb z :
  zone_step (pref, fb) z
  = match zone_step ([], []) z with
    | Ok (p, f) => Ok (pref ++ p, fb ++ f)
    | Raise e => Raise e
    end.
Proof.
  unfold zone_step.
  destruct (type_file z) as [t|e]; cbn [bind].
  2:{ destruct (is_io_or_value_error e); rewrite ?app_nil_r; reflexivity. }
  destruct (temp_file z) as [s|e]; cbn [bind].
  2:{ destruct (is_io_or_value_error e); rewrite ?app_nil_r; reflexivity. }
  destruct (py_int (strip s)) as [m|e]; cbn [bind].
  2:{ destruct (is_io_or_value_error e); rewrite ?app_nil_r; reflexivity. }
  destruct (int_div_float m 1000%float) as [c|e]; cbn [bind].
  2:{ destruct (is_io_or_value_error e); rewrite ?app_nil_r; reflexivity. }
  destruct (in_range c); cbn [negb]; [| rewrite !app_nil_r; reflexivity].
  destruct (existsb _ preferred_types); [rewrite app_nil_r; reflexivity|].
  destruct (contains _ _); rewrite ?app_nil_r; reflexivity.
Qed.

Lemma zone_loop_shift `{PyText} zones : forall pref fb,
  zone_loop (pref, fb) zones
  = match zone_loop ([], []) zones with
    | Ok (p, f) => Ok (pref ++ p, fb ++ f)
    | Raise e => Raise e
    end.
Proof.
  induction zones as [|z zones IH]; intros pref fb; cbn [zone_loop].
  - rewrite !app_nil_r. reflexivity.
  - rewrite (zone_step_shift pref fb z).
    destruct (zone_step ([], []) z) as [[p f]|e]; cbn [bind]; [| reflexivity].
    rewrite (IH (pref ++ p) (fb ++ f)), (IH p f).
    destruct (zone_loop ([], []) zones) as [[p' f']|e]; [| reflexivity].
    rewrite !app_assoc. reflexivity.
Qed.

Lemma zone_step_not_preferred `{PyText} z :
  zone_not_preferred z -> exists f, zone_step ([], []) z = Ok ([], f).
Proof.
  unfold zone_step, zone_not_preferred, zone_temperature.
  intros (t & c & -> & Ec & Hp). cbn [bind].
  destruct (temp_file z) as [s|e]; cbn [bind] in *; [| discriminate].
  destruct (py_int (strip s)) as [m|e]; cbn [bind] in *; [| discriminate].
  rewrite Ec. cbn [bind]. rewrite Hp.
  destruct (in_range c); cbn [negb]; [| eauto].
  destruct (contains _ _); eauto.
Qed.

(** X5. The fallback bucket counts only when the preferred one is empty:
    when the other zones give at least one preferred reading, a readable
    zone of any non-preferred type, [acpitz] included, leaves the result as
    it is without it. *)
Theorem preferred_readings_hide_fallback `{PyText} (env : Env) zs1 z zs2 p f :
  zone_not_preferred z ->
  zone_loop ([], []) (zs1 ++ zs2) = Ok (p, f) ->
  p <> [] ->
  get_cpu_temperature (with_zones env (zs1 ++ z :: zs2))
  = get_cpu_temperature (with_zones env (zs1 ++ zs2)).
Proof.
  intros Hz El Hp. unfold get_cpu_temperature.
  change (strategy_A (with_zones env (zs1 ++ z :: zs2))) with (strategy_A env).
  change (strategy_A (with_zones env (zs1 ++ zs2))) with (strategy_A env).
  rewrite !strategy_B_buckets. cbn [with_zones thermal_zones].
  rewrite El. rewrite zone_loop_app in El |- *. cbn [zone_loop].
  destruct (zone_loop ([], []) zs1) as [[p1 f1]|e]; cbn [bind] in *; [| discriminate].
  destruct (zone_step_not_preferred Hz) as [fz Ez].
  rewrite zone_step_shift, Ez. cbn [bind]. rewrite app_nil_r.
  rewrite zone_loop_shift in El |- *.
  destruct (zone_loop ([], []) zs2) as [[p2 f2]|e]; [| discriminate].
  injection El as <- <-. cbn [bind].
  unfold bucket_average. destruct (p1 ++ p2); [congruence | reflexivity].
Qed.

(** ** [get_memory_usage]: the meminfo table *)

Lemma meminfo_loop_app `{PyText} ls1 ls2 : forall tbl,
  meminfo_loop tbl (ls1 ++ ls2) = (tbl' <- meminfo_loop tbl ls1 ;; meminfo_loop tbl' ls2).
Proof.
  induction ls1 as [|l ls1 IH]; intros tbl; cbn [app meminfo_loop]; [reflexivity|].
  destruct (meminfo_step tbl l) as [tbl1|e]; cbn [bind]; [apply IH | reflexivity].
Qed.

Lemma get_memory_usage_fallback `{PyText} env e :
  memory_from_psutil env = Raise e ->
  get_memory_usage env
  = match memory_from_meminfo env with Ok r => r | Raise _ => no_memory end.
Proof. unfold get_memory_usage. intros ->. reflexivity. Qed.

Lemma int_truediv_by_zero a : exists e, int_truediv a 0 = Raise e.
Proof. unfold int_truediv. cbn [Z.eqb]. eexists; reflexivity. Qed.

(** X6. A table whose [MemTotal] is 0 gives the all-["N/A"] record: the
    division by zero at line 204 is caught at line 215 and never escapes. *)
Theorem zero_MemTotal_is_unavailable `{PyText} (env : Env) e lines tbl available_kb :
  memory_from_psutil env = Raise e ->
  meminfo_file env = Ok lines ->
  meminfo_loop [] lines = Ok tbl ->
  dict_get (lit "MemTotal") tbl = Some 0 ->
  dict_get (lit "MemAvailable") tbl = Some available_kb ->
  get_memory_usage env = no_memory.
Proof.
  intros E1 E2 E3 E4 E5. rewrite (get_memory_usage_fallback _ E1).
  unfold memory_from_meminfo. rewrite E2, bind_ok_l, E3, bind_ok_l.
  unfold memory_from_table. rewrite E4, E5.
  destruct (int_truediv (0 - available_kb) (1024 ^ 2)) as [u|e1]; cbn [bind];
    [| reflexivity].
  destruct (int_truediv 0 (1024 ^ 2)) as [t|e2]; cbn [bind]; [| reflexivity].
  destruct (int_truediv_by_zero (0 - available_kb)) as [e3 ->]. reflexivity.
Qed.

Lemma meminfo_step_malformed `{PyText} tbl line :
  malformed_row line -> exists e, meminfo_step tbl line = Raise e.
Proof.
  unfold meminfo_step, malformed_row.
  intros (key & value & -> & [-> | (token & rest & -> & Hi)]); cbn [first_item bind].
  - eexists; reflexivity.
  - unfold py_int. rewrite Hi. eexists; reflexivity.
Qed.

Lemma meminfo_loop_malformed `{PyText} line lines : forall tbl,
  In line lines -> malformed_row line -> exists e, meminfo_loop tbl lines = Raise e.
Proof.
  induction lines as [|l lines IH]; intros tbl Hin Hm; [destruct Hin|].
  cbn [meminfo_loop]. destruct Hin as [-> | Hin].
  - destruct (meminfo_step_malformed tbl Hm) as [e ->]. eexists; reflexivity.
  - destruct (meminfo_step tbl l) as [tbl1|e]; cbn [bind]; [| eexists; reflexivity].
    apply IH; assumption.
Qed.

(** X7. One malformed row spoils the whole fallback: if any row of
    [/proc/meminfo] has exactly one colon and a value that is blank or does
    not start with an integer, the reading is all ["N/A"], whatever
    [MemTotal] and [MemAvailable] say. *)
Theorem malformed_row_is_unavailable `{PyText} (env : Env) e lines line :
  memory_from_psutil env = Raise e ->
  meminfo_file env = Ok lines ->
  In line lines ->
  malformed_row line ->
  get_memory_usage env = no_memory.
Proof.
  intros E1 E2 Hin Hm. rewrite (get_memory_usage_fallback _ E1).
  unfold memory_from_meminfo. rewrite E2, bind_ok_l.
  destruct (@meminfo_loop_malformed _ line lines [] Hin Hm) as [e1 ->]. reflexivity.
Qed.

Lemma meminfo_step_passed_over `{PyText} tbl line :
  List.length (split_on 58 line) <> 2%nat -> meminfo_step tbl line = Ok tbl.
Proof.
  unfold meminfo_step. intros Hl.
  destruct (split_on 58 line) as [|p0 [|p1 [|p2 ps]]]; try reflexivity.
  exfalso. apply Hl. reflexivity.
Qed.

(** X8. A row that does not split into exactly two parts at its colons (no
    colon, or more than one) is passed over: the reading is the one the file
    without that row gives. *)
Theorem row_without_one_colon_is_ignored `{PyText} (env : Env) ls1 line ls2 :
  List.length (split_on 58 line) <> 2%nat ->
  get_memory_usage (with_meminfo env (ls1 ++ line :: ls2))
  = get_memory_usage (with_meminfo env (ls1 ++ ls2)).
Proof.
  intros Hl. unfold get_memory_usage.
  change (memory_from_psutil (with_meminfo env (ls1 ++ line :: ls2)))
    with (memory_from_psutil env).
  change (memory_from_psutil (with_meminfo env (ls1 ++ ls2)))
    with (memory_from_psutil env).
  destruct (memory_from_psutil env) as [r|e]; [reflexivity|].
  unfold memory_from_meminfo. cbn [with_meminfo meminfo_file bind].
  rewrite !meminfo_loop_app. cbn [meminfo_loop].
  destruct (meminfo_loop [] ls1) as [tbl|e1]; cbn [bind]; [| reflexivity].
  rewrite (meminfo_step_passed_over tbl line Hl). reflexivity.
Qed.

Lemma meminfo_step_binds `{PyText} tbl line key n :
  row_binds line key n -> meminfo_step tbl line = Ok ((key, n) :: tbl).
Proof.
  unfold meminfo_step, row_binds, py_int.
  intros (p0 & p1 & token & rest & -> & <- & -> & Hi). cbn [first_item bind].
  rewrite Hi. reflexivity.
Qed.

Lemma meminfo_step_spares `{PyText} tbl line key tbl' :
  row_spares line key -> meminfo_step tbl line = Ok tbl' ->
  dict_get key tbl' = dict_get key tbl.
Proof.
  unfold meminfo_step, row_spares. intros Hs.
  destruct (split_on 58 line) as [|p0 [|p1 [|p2 ps]]]; try (intros [= <-]; reflexivity).
  intros E. apply bind_ok in E as (value & _ & E). apply bind_ok in E as (n & _ & E).
  injection E as <-. unfold dict_get. cbn [find fst].
  destruct (str_eqb (strip p0) key) eqn:Ek; [| reflexivity].
  exfalso. apply (Hs p0 p1 eq_refl). apply str_eqb_eq. exact Ek.
Qed.

Lemma meminfo_loop_spares `{PyText} key lines : forall tbl tbl',
  (forall l, In l lines -> row_spares l key) ->
  meminfo_loop tbl lines = Ok tbl' ->
  dict_get key tbl' = dict_get key tbl.
Proof.
  induction lines as [|l lines IH]; cbn [meminfo_loop]; intros tbl tbl' Hs E.
  - injection E as <-. reflexivity.
  - apply bind_ok in E as (tbl1 & E1 & E).
    rewrite (IH tbl1 tbl' (fun l' Hl => Hs l' (or_intror Hl)) E).
    eapply meminfo_step_spares; [| exact E1]. apply Hs. left. reflexivity.
Qed.

(** X9. The table is a dict, so a key that several rows bind keeps the
    figure of the last of them: after a row that binds [key] to [n], and
    rows that bind other keys only, the table maps [key] to [n], whatever
    the rows before it said. *)
Theorem last_row_of_a_key_wins `{PyText} ls1 line ls2 key n tbl :
  row_binds line key n ->
  (forall l, In l ls2 -> row_spares l key) ->
  meminfo_loop [] (ls1 ++ line :: ls2) = Ok tbl ->
  dict_get key tbl = Some n.
Proof.
  intros Hb Hs E. rewrite meminfo_loop_app in E. cbn [meminfo_loop] in E.
  apply bind_ok in E as (tbl1 & _ & E).
  rewrite (meminfo_step_binds tbl1 Hb), bind_ok_l in E.
  rewrite (@meminfo_loop_spares _ key ls2 _ _ Hs E).
  unfold dict_get. cbn [find fst snd]. rewrite str_eqb_refl. reflexivity.
Qed.

(** ** What the formatter writes *)

Lemma printableb_spec s : forallb printableb s = true -> Forall printable s.
Proof.
  induction s as [|c s IH]; cbn [forallb]; intros E; [constructor|].
  apply andb_prop in E as [Hc Hs]. constructor; [| auto].
  unfold printableb in Hc. apply andb_prop in Hc as [H1 H2].
  apply N.leb_le in H1. apply N.leb_le in H2. split; assumption.
Qed.

Ltac printable_lit := apply printableb_spec; reflexivity.

Lemma digit_char_printable d : 0 <= d < 10 -> printable (digit_char d).
Proof. unfold digit_char, printable. lia. Qed.

Lemma nat_digits_printable fuel : forall n acc,
  Forall printable acc -> Forall printable (nat_digits fuel n acc).
Proof.
  induction fuel as [|fuel IH]; intros n acc Ha; cbn [nat_digits]; [exact Ha|].
  assert (Hd : Forall printable (digit_char (n mod 10) :: acc)).
  { constructor; [| exact Ha]. apply digit_char_printable. apply Z.mod_pos_bound. lia. }
  destruct (n <? 10); [exact Hd | apply IH; exact Hd].
Qed.

Lemma digits_of_printable n : Forall printable (digits_of n).
Proof. apply nat_digits_printable. constructor. Qed.

Lemma int_str_printable n : Forall printable (int_str n).
Proof.
  unfold int_str. destruct (n <? 0); [| apply digits_of_printable].
  apply Forall_app. split; [printable_lit | apply digits_of_printable].
Qed.

Lemma sign_str_printable s : Forall printable (sign_str s).
Proof. destruct s; [printable_lit | constructor]. Qed.

Lemma Forall_firstn {A} (P : A -> Prop) l : forall n, Forall P l -> Forall P (firstn n l).
Proof.
  induction l as [|x l IH]; intros [|n] Hl; cbn; try constructor;
    inversion Hl; subst; auto.
Qed.

Lemma Forall_skipn {A} (P : A -> Prop) l : forall n, Forall P l -> Forall P (skipn n l).
Proof.
  induction l as [|x l IH]; intros [|n] Hl; cbn; try assumption.
  inversion Hl; subst; auto.
Qed.

Lemma zeros_printable n : Forall printable (zeros n).
Proof.
  unfold zeros. induction (Z.to_nat n) as [|k IH]; cbn [repeat]; constructor;
    [unfold printable; lia | exact IH].
Qed.

Lemma exponent_str_printable e : Forall printable (exponent_str e).
Proof.
  unfold exponent_str. repeat (apply Forall_app; split).
  - destruct (e <? 0); printable_lit.
  - destruct (Z.abs e <? 10); [printable_lit | constructor].
  - apply digits_of_printable.
Qed.

Ltac printable_pieces :=
  repeat first
    [ apply Forall_app; split
    | match goal with |- Forall _ (if ?b then _ else _) => destruct b end
    | printable_lit
    | apply digits_of_printable
    | apply zeros_printable
    | apply Forall_firstn
    | apply Forall_skipn
    | assumption
    | apply Forall_nil
    | apply Forall_cons ].

Lemma layout_repr_printable ds decpt :
  Forall printable ds -> Forall printable (layout_repr ds decpt).
Proof.
  intros Hd. unfold layout_repr.
  destruct ((decpt <=? -4) || (16 <? decpt)).
  - destruct ds as [|d [|d' rest]]; [constructor | |];
      inversion Hd; subst; printable_pieces.
  - destruct (decpt <=? 0); [| destruct (_ <=? decpt)]; printable_pieces.
Qed.

Lemma shortest_digits_printable m e : Forall printable (fst (shortest_digits m e)).
Proof.
  unfold shortest_digits.
  destruct (shortest _ _ _ _ _) as [c k]. destruct (strip_zeros 20 c k) as [c' k'].
  cbn [fst]. apply digits_of_printable.
Qed.

(** [repr] of a float is printable ASCII. *)
Lemma float_repr_printable x : Forall printable (float_repr x).
Proof.
  unfold float_repr. destruct (Prim2SF x) as [s|s| |s m e].
  - apply Forall_app. split; [apply sign_str_printable | printable_lit].
  - apply Forall_app. split; [apply sign_str_printable | printable_lit].
  - printable_lit.
  - pose proof (shortest_digits_printable m e) as Hd.
    destruct (shortest_digits m e) as [ds decpt]. cbn [fst] in Hd.
    apply Forall_app. split; [apply sign_str_printable |].
    apply layout_repr_printable. exact Hd.
Qed.

Lemma two_digits_printable n : 0 <= n < 100 -> Forall printable (two_digits n).
Proof.
  intros Hn. unfold two_digits.
  repeat constructor; apply digit_char_printable;
    Z.to_euclidean_division_equations; lia.
Qed.

Lemma format_2f_printable x : Forall printable (format_2f x).
Proof.
  unfold format_2f. destruct (Prim2SF x) as [s|s| |s m e].
  - apply Forall_app. split; [apply sign_str_printable | printable_lit].
  - apply Forall_app. split; [apply sign_str_printable | printable_lit].
  - printable_lit.
  - destruct (scaled 100 m e) as [n d].
    repeat (apply Forall_app; split);
      [apply sign_str_printable | apply digits_of_printable | printable_lit |].
    apply two_digits_printable. apply Z.mod_pos_bound. lia.
Qed.

Lemma value_str_printable v : Forall printable (value_str v).
Proof. destruct v; [apply float_repr_printable | printable_lit]. Qed.

Ltac printable_text :=
  repeat first
    [ apply float_repr_printable
    | apply format_2f_printable
    | apply value_str_printable
    | apply int_str_printable
    | printable_lit
    | apply Forall_nil
    | apply Forall_cons; [unfold printable; lia |]
    | apply Forall_app; split ].

Lemma printable_one_line s : Forall printable s -> one_line s.
Proof. apply Forall_impl. unfold printable. intros c Hc. lia. Qed.

Lemma printable_bmp s : Forall printable s -> is_bmp s.
Proof. apply Forall_impl. unfold printable. intros c Hc. lia. Qed.

Lemma split_on_line a b :
  one_line a -> split_on 10 (a ++ 10%N :: b) = a :: split_on 10 b.
Proof.
  induction 1 as [|c a Hc _ IH]; cbn [app split_on]; [reflexivity|].
  destruct (N.eqb_spec c 10); [contradiction|]. rewrite IH. reflexivity.
Qed.

Lemma split_on_last a : one_line a -> split_on 10 a = [a].
Proof.
  induction 1 as [|c a Hc _ IH]; cbn [split_on]; [reflexivity|].
  destruct (N.eqb_spec c 10); [contradiction|]. rewrite IH. reflexivity.
Qed.

Lemma one_line_app a b : one_line a -> one_line b -> one_line (a ++ b).
Proof. intros Ha Hb. apply Forall_app. split; assumption. Qed.

Lemma core_line_one_line i load : one_line (core_line i load).
Proof.
  apply printable_one_line. unfold core_line. printable_text.
Qed.

Lemma core_lines_split loads : forall i rest,
  split_on 10 (core_lines i loads ++ rest) = core_line_list i loads ++ split_on 10 rest.
Proof.
  induction loads as [|load loads IH]; intros i rest; [reflexivity|].
  cbn [core_lines core_line_list].
  change (lit "  Core " ++ int_str i ++ lit ": " ++ float_repr load ++ lit "%"
          ++ newline ++ core_lines (i + 1) loads)
    with (lit "  Core " ++ (int_str i ++ (lit ": " ++ (float_repr load ++ (lit "%"
          ++ (newline ++ core_lines (i + 1) loads)))))).
  replace ((lit "  Core " ++ (int_str i ++ (lit ": " ++ (float_repr load ++ (lit "%"
          ++ (newline ++ core_lines (i + 1) loads)))))) ++ rest)
    with (core_line i load ++ 10%N :: (core_lines (i + 1) loads ++ rest))
    by (unfold core_line, newline; rewrite <- !app_assoc; reflexivity).
  rewrite (split_on_line _ (core_line_one_line i load)), IH. reflexivity.
Qed.

Lemma load_block_split cpu_load rest :
  split_on 10 (load_block cpu_load ++ rest)
  = load_lines (per_core cpu_load) ++ split_on 10 rest.
Proof.
  unfold load_block, load_lines. destruct (per_core cpu_load) as [|load loads];
    [reflexivity|].
  replace ((lit "CPU Load:" ++ newline ++ core_lines 0 (load :: loads)) ++ rest)
    with (lit "CPU Load:" ++ 10%N :: (core_lines 0 (load :: loads) ++ rest))
    by (unfold newline; rewrite <- !app_assoc; reflexivity).
  rewrite split_on_line by (apply printable_one_line; printable_lit).
  rewrite core_lines_split. reflexivity.
Qed.

Lemma deg_c_one_line : one_line deg_c.
Proof. repeat constructor; discriminate. Qed.

Lemma cpu_text_one_line cpu_temp cpu_load : one_line (cpu_text_of cpu_temp cpu_load).
Proof.
  unfold cpu_text_of. destruct cpu_temp as [t|]; [| apply printable_one_line; printable_lit].
  destruct (overall cpu_load) as [o|];
    repeat apply one_line_app;
    first [apply deg_c_one_line | apply printable_one_line;
           first [printable_lit | apply float_repr_printable]].
Qed.

Lemma memory_line_printable mem_info line :
  memory_line mem_info = Ok line -> Forall printable line.
Proof.
  unfold memory_line.
  destruct (used_gb mem_info) as [u|], (total_gb mem_info) as [t|]; cbn [bind];
    try (intros [= <-]; printable_lit).
  intros E. invert_binds E. injection E as <-. printable_text.
Qed.

Lemma mem_text_printable mem_info mem_text :
  mem_text_of mem_info = Ok mem_text -> Forall printable mem_text.
Proof.
  unfold mem_text_of.
  destruct (used_gb mem_info) as [u|], (total_gb mem_info) as [t|],
           (percent mem_info) as [p|]; cbn [bind];
    try (intros [= <-]; printable_lit).
  intros E. invert_binds E. injection E as <-. printable_text.
Qed.

Lemma waybar_record_fields timestamp cpu_temp mem_info cpu_load r :
  waybar_record timestamp cpu_temp mem_info cpu_load = Ok r ->
  exists mem_text mem_line,
    mem_text_of mem_info = Ok mem_text /\ memory_line mem_info = Ok mem_line
    /\ r = mk_output
             (lit "CPU: " ++ cpu_text_of cpu_temp cpu_load ++ lit " | MEM: " ++ mem_text)
             (lit "Hardware Info" ++ newline
              ++ lit "CPU Temp: " ++ cpu_text_of cpu_temp cpu_load ++ newline
              ++ load_block cpu_load ++ mem_line ++ newline
              ++ lit "Updated: " ++ timestamp)
             (lit "hwinfo") (lit "hwinfo").
Proof.
  unfold waybar_record. intros E.
  apply bind_ok in E as (mem_text & Em & E).
  apply bind_ok in E as (mem_line & El & E).
  injection E as <-. exists mem_text, mem_line. repeat split; assumption.
Qed.

(** X10. The tooltip is made of these lines, in this order, and of no other:
    the header, the CPU temperature, the per-core block (absent for an empty
    list, else its header and one line per core, numbered from 0), the
    memory line and the time stamp; the main text is a single line. *)
Theorem tooltip_lines timestamp cpu_temp mem_info cpu_load r :
  one_line timestamp ->
  waybar_record timestamp cpu_temp mem_info cpu_load = Ok r ->
  exists mem_line,
    memory_line mem_info = Ok mem_line
    /\ split_on 10 (tooltip r)
       = [lit "Hardware Info"; lit "CPU Temp: " ++ cpu_text_of cpu_temp cpu_load]
         ++ load_lines (per_core cpu_load)
         ++ [mem_line; lit "Updated: " ++ timestamp]
    /\ one_line (text r).
Proof.
  intros Hts E.
  destruct (waybar_record_fields _ _ _ _ E) as (mem_text & mem_line & Em & El & ->).
  exists mem_line. split; [exact El|]. cbn [tooltip text]. split.
  - unfold newline.
    change (lit "Hardware Info" ++ [10%N] ++ ?x) with (lit "Hardware Info" ++ 10%N :: x).
    rewrite split_on_line by (apply printable_one_line; printable_lit).
    replace (lit "CPU Temp: " ++ cpu_text_of cpu_temp cpu_load ++ [10%N]
             ++ load_block cpu_load ++ mem_line ++ [10%N] ++ lit "Updated: " ++ timestamp)
      with ((lit "CPU Temp: " ++ cpu_text_of cpu_temp cpu_load)
            ++ 10%N :: (load_block cpu_load
                        ++ (mem_line ++ 10%N :: (lit "Updated: " ++ timestamp))))
      by (rewrite <- !app_assoc; reflexivity).
    rewrite split_on_line
      by (apply one_line_app;
          [apply printable_one_line; printable_lit | apply cpu_text_one_line]).
    rewrite load_block_split.
    rewrite split_on_line
      by (apply printable_one_line; eapply memory_line_printable; exact El).
    rewrite split_on_last
      by (apply one_line_app; [apply printable_one_line; printable_lit | exact Hts]).
    reflexivity.
  - repeat apply one_line_app;
      first [apply cpu_text_one_line
            | apply printable_one_line;
              first [printable_lit | eapply mem_text_printable; exact Em]].
Qed.

(** ** The memory line of the tooltip *)

Lemma has_line_in line s : has_line line s = true <-> In line (split_on 10 s).
Proof.
  unfold has_line. rewrite existsb_exists. split.
  - intros (l & Hin & E). apply str_eqb_eq in E. subst l. exact Hin.
  - intros Hin. exists line. split; [exact Hin | apply str_eqb_refl].
Qed.

(** The memory line is a line of the tooltip, whatever the time stamp. *)
Lemma tooltip_has_memory_line timestamp cpu_temp mem_info cpu_load r :
  waybar_record timestamp cpu_temp mem_info cpu_load = Ok r ->
  exists mem_line,
    memory_line mem_info = Ok mem_line /\ has_line mem_line (tooltip r) = true.
Proof.
  intros E.
  destruct (waybar_record_fields _ _ _ _ E) as (mem_text & mem_line & Em & El & ->).
  exists mem_line. split; [exact El|]. apply has_line_in. cbn [tooltip].
  unfold newline.
  change (lit "Hardware Info" ++ [10%N] ++ ?x) with (lit "Hardware Info" ++ 10%N :: x).
  rewrite split_on_line by (apply printable_one_line; printable_lit).
  replace (lit "CPU Temp: " ++ cpu_text_of cpu_temp cpu_load ++ [10%N]
           ++ load_block cpu_load ++ mem_line ++ [10%N] ++ lit "Updated: " ++ timestamp)
    with ((lit "CPU Temp: " ++ cpu_text_of cpu_temp cpu_load)
          ++ 10%N :: (load_block cpu_load
                      ++ (mem_line ++ 10%N :: (lit "Updated: " ++ timestamp))))
    by (rewrite <- !app_assoc; reflexivity).
  rewrite split_on_line
    by (apply one_line_app;
        [apply printable_one_line; printable_lit | apply cpu_text_one_line]).
  rewrite load_block_split.
  rewrite split_on_line
    by (apply printable_one_line; eapply memory_line_printable; exact El).
  right. right. apply in_or_app. right. left. reflexivity.
Qed.

(** The reading [main] passes to the formatter is complete or empty. *)
Lemma get_memory_usage_cases `{PyText} (env : Env) :
  memory_complete (get_memory_usage env) \/ get_memory_usage env = no_memory.
Proof.
  unfold get_memory_usage.
  destruct (memory_from_psutil env) as [r|e] eqn:E1.
  - left. eapply memory_from_psutil_complete; eauto.
  - destruct (memory_from_meminfo env) as [r|e'] eqn:E2; [| now right].
    unfold memory_from_meminfo in E2.
    apply bind_ok in E2 as (lines & _ & E2).
    apply bind_ok in E2 as (tbl & _ & E2).
    eapply memory_from_table_all_or_nothing; eauto.
Qed.

(** C4. For the memory reading that the program passes to the formatter, the
    one [get_memory_usage] returns, the tooltip of the record behind the
    returned JSON has the line lines 263-268 write, and that line is
    ["Memory: N/A"] when the three figures are not all numbers, and
    ["Memory: <used_gb * 1024 to 2 decimals>MB / <total_gb * 1024 to 2
    decimals>MB (<percent>%)"] when they are. *)
Theorem tooltip_memory_line `{PyText} (env : Env) timestamp cpu_temp cpu_load js :
  let mem_info := get_memory_usage env in
  format_waybar_output timestamp cpu_temp mem_info cpu_load = Ok js ->
  exists r line,
    waybar_record timestamp cpu_temp mem_info cpu_load = Ok r
    /\ js = json_dumps (record_items r)
    /\ memory_line mem_info = Ok line
    /\ has_line line (tooltip r) = true
    /\ match used_gb mem_info, total_gb mem_info, percent mem_info with
       | Num u, Num t, Num p =>
           line = lit "Memory: " ++ format_2f (PrimFloat.mul u 1024%float)
                  ++ lit "MB / " ++ format_2f (PrimFloat.mul t 1024%float)
                  ++ lit "MB (" ++ float_repr p ++ lit "%)"
       | _, _, _ => line = lit "Memory: N/A"
       end.
Proof.
  intros mem_info E. unfold format_waybar_output in E.
  apply bind_ok in E as (r & Er & E). injection E as <-.
  destruct (tooltip_has_memory_line _ _ _ _ Er) as (line & El & Hl).
  exists r, line. repeat split; [exact Er | exact El | exact Hl |].
  destruct (get_memory_usage_cases env) as [(u & t & p & Em) | Em];
    fold mem_info in Em; rewrite Em in El |- *; cbn [used_gb total_gb percent].
  - rewrite memory_line_numeric in El. injection El as <-. reflexivity.
  - cbn in El. injection El as <-. reflexivity.
Qed.

Lemma tooltip_memory_line_witness :
  let env := no_psutil_env [] (Ok meminfo_16GB) in
  let mem_info := get_memory_usage (H := ascii_text) env in
  let js := json_dumps (record_items record_16GB) in
  (mem_info = memory_16GB
   /\ format_waybar_output (lit "12:00:00") NA mem_info no_load = Ok js)
  /\ exists r line,
       waybar_record (lit "12:00:00") NA mem_info no_load = Ok r
       /\ js = json_dumps (record_items r)
       /\ memory_line mem_info = Ok line
       /\ has_line line (tooltip r) = true
       /\ line = lit "Memory: " ++ format_2f (PrimFloat.mul 7.6%float 1024%float)
                 ++ lit "MB / " ++ format_2f (PrimFloat.mul 15.3%float 1024%float)
                 ++ lit "MB (" ++ float_repr 50.0%float ++ lit "%)".
Proof.
  intros env mem_info js.
  assert (Em : mem_info = memory_16GB) by (vm_compute; reflexivity).
  assert (E : format_waybar_output (lit "12:00:00") NA mem_info no_load = Ok js)
    by (vm_compute; reflexivity).
  split; [split; [exact Em | exact E] |].
  exact (@tooltip_memory_line ascii_text env (lit "12:00:00") NA no_load js E).
Defined.

Lemma hex_digit_printable d : (d < 16)%N -> printable (hex_digit d).
Proof. unfold hex_digit, printable. destruct (N.ltb_spec d 10); lia. Qed.

Lemma u_escape_printable u : Forall printable (u_escape u).
Proof.
  unfold u_escape, hex4. apply Forall_app. split; [printable_lit|].
  repeat constructor; apply hex_digit_printable; apply N.mod_lt; discriminate.
Qed.

Lemma escape_char_printable c : Forall printable (escape_char c).
Proof.
  unfold escape_char.
  repeat match goal with
         | |- context [if (c =? ?k)%N then _ else _] =>
             destruct (N.eqb_spec c k); [printable_lit |]
         end.
  destruct (andb _ _) eqn:Hp.
  - apply andb_prop in Hp as [H1 H2]. apply N.leb_le in H1. apply N.leb_le in H2.
    repeat constructor; assumption.
  - destruct (c <? 65536)%N; [apply u_escape_printable|].
    apply Forall_app. split; apply u_escape_printable.
Qed.

Lemma json_string_printable s : Forall printable (json_string s).
Proof.
  unfold json_string. repeat (apply Forall_app; split); try printable_lit.
  apply Forall_flat_map. apply Forall_forall. intros c _. apply escape_char_printable.
Qed.

Lemma json_member_printable kv : Forall printable (json_member kv).
Proof.
  unfold json_member.
  repeat first [apply json_string_printable | printable_lit | apply Forall_app; split].
Qed.

Lemma json_members_printable items : Forall printable (json_members items).
Proof.
  induction items as [|kv [|kv' items] IH]; [constructor | |].
  - apply json_member_printable.
  - rewrite json_members_cons.
    repeat first [apply json_member_printable | exact IH | printable_lit
                 | apply Forall_app; split].
Qed.

Lemma json_dumps_printable items : Forall printable (json_dumps items).
Proof.
  unfold json_dumps.
  repeat first [apply json_members_printable | printable_lit | apply Forall_app; split].
Qed.

(** X11. Whatever the readings, the time stamp or the error message hold,
    every line [main] prints is printable ASCII: [json.dumps] escapes the
    degree sign, the newlines of the tooltip and any other character outside
    the range 32 to 126. *)
Theorem stdout_is_printable_ascii timestamp temperature memory load :
  Forall (Forall printable) (stdout (main_with timestamp temperature memory load)).
Proof.
  destruct (main_with_prints_record timestamp temperature memory load) as [r ->].
  constructor; [apply json_dumps_printable | constructor].
Qed.

Ltac bmp_text :=
  unfold is_bmp in *;
  repeat first
    [ assumption
    | apply Forall_nil
    | solve [apply printable_bmp; printable_text]
    | apply Forall_cons; [lia |]
    | apply Forall_app; split ].

Lemma cpu_text_bmp cpu_temp cpu_load : is_bmp (cpu_text_of cpu_temp cpu_load).
Proof.
  unfold cpu_text_of. destruct cpu_temp as [t|]; [| bmp_text].
  destruct (overall cpu_load) as [o|]; bmp_text.
Qed.

Lemma core_lines_bmp loads : forall i, is_bmp (core_lines i loads).
Proof.
  induction loads as [|load loads IH]; intros i; [constructor|].
  cbn [core_lines]. specialize (IH (i + 1)). bmp_text.
Qed.

Lemma load_block_bmp cpu_load : is_bmp (load_block cpu_load).
Proof.
  unfold load_block. destruct (per_core cpu_load) as [|load loads]; [constructor|].
  pose proof (core_lines_bmp (load :: loads) 0). bmp_text.
Qed.

(** X12. When the time stamp is text of the basic plane, reading back the
    JSON that [format_waybar_output] returns gives exactly the record it was
    built from: text, tooltip, class and alt, character for character. *)
Theorem format_waybar_output_round_trip timestamp cpu_temp mem_info cpu_load js :
  is_bmp timestamp ->
  format_waybar_output timestamp cpu_temp mem_info cpu_load = Ok js ->
  exists r,
    waybar_record timestamp cpu_temp mem_info cpu_load = Ok r
    /\ parse_output js = Some r.
Proof.
  intros Hts E. unfold format_waybar_output in E.
  apply bind_ok in E as (r & Er & E). injection E as <-.
  exists r. split; [exact Er|].
  destruct (waybar_record_fields _ _ _ _ Er) as (mem_text & mem_line & Em & El & ->).
  pose proof (cpu_text_bmp cpu_temp cpu_load) as Hc.
  pose proof (load_block_bmp cpu_load) as Hl.
  pose proof (printable_bmp (mem_text_printable _ Em)) as Hm.
  pose proof (printable_bmp (memory_line_printable _ El)) as Hml.
  apply parse_output_json_dumps_bmp; cbn [text tooltip class alt]; bmp_text.
Qed.

(** ** When the formatter fails *)

Lemma SFeqb_refl v : v <> S754_nan -> SFeqb v v = true.
Proof.
  unfold SFeqb. destruct v as [s|s| |s m e]; cbn [SFcompare]; try congruence.
  - destruct s; reflexivity.
  - intros _. destruct s; rewrite Z.compare_refl, Pos.compare_cont_refl; reflexivity.
Qed.

Lemma is_nan_Prim2SF x : PrimFloat.is_nan x = true -> Prim2SF x = S754_nan.
Proof.
  unfold PrimFloat.is_nan. rewrite eqb_spec. intros E.
  destruct (Prim2SF x) as [s|s| |s m e] eqn:Ex; [| | reflexivity |];
    rewrite SFeqb_refl in E by discriminate; discriminate.
Qed.

Lemma is_infinity_Prim2SF x :
  PrimFloat.is_infinity x = true -> exists s, Prim2SF x = S754_infinity s.
Proof.
  unfold PrimFloat.is_infinity. rewrite eqb_spec, abs_spec.
  change (Prim2SF infinity) with (S754_infinity false).
  destruct (Prim2SF x) as [s|s| |s m e]; cbn; try discriminate. eauto.
Qed.

Lemma py_round_not_finite x :
  is_finite x = false ->
  exists e, py_round x = Raise e
            /\ (exn_kind e = ValueError \/ exn_kind e = OverflowError).
Proof.
  unfold is_finite, py_round. intros Hf.
  apply andb_false_elim in Hf as [Hn | Hi].
  - apply negb_false_iff in Hn. rewrite (@is_nan_Prim2SF x Hn).
    eexists. split; [reflexivity | left; reflexivity].
  - apply negb_false_iff in Hi. destruct (@is_infinity_Prim2SF x Hi) as [s ->].
    eexists. split; [reflexivity | right; reflexivity].
Qed.

Lemma mem_text_not_formattable mem_info :
  formattable mem_info = false ->
  exists e, mem_text_of mem_info = Raise e
            /\ (exn_kind e = ValueError \/ exn_kind e = OverflowError).
Proof.
  unfold formattable, mem_text_of.
  destruct (used_gb mem_info) as [u|], (total_gb mem_info) as [t|],
           (percent mem_info) as [p|]; try discriminate.
  intros Hf. destruct (is_finite u) eqn:Hu.
  - destruct (@py_round_finite u Hu) as [ku ->]. cbn [bind].
    cbn [andb] in Hf. destruct (@py_round_not_finite t Hf) as (e & -> & He).
    exists e. split; [reflexivity | exact He].
  - destruct (@py_round_not_finite u Hu) as (e & -> & He).
    exists e. split; [reflexivity | exact He].
Qed.

(** X13. [format_waybar_output] raises in one case only: all three memory
    figures are numbers and [used_gb] or [total_gb] is a NaN or an infinity,
    which [round] at lines 244-245 refuses with a [ValueError] or an
    [OverflowError]. On every other input it returns its JSON. *)
Theorem format_waybar_output_fails_only_on_non_finite_memory
  timestamp cpu_temp mem_info cpu_load :
  match format_waybar_output timestamp cpu_temp mem_info cpu_load with
  | Ok _ => formattable mem_info = true
  | Raise e =>
      formattable mem_info = false
      /\ (exn_kind e = ValueError \/ exn_kind e = OverflowError)
  end.
Proof.
  unfold format_waybar_output. destruct (formattable mem_info) eqn:Hf.
  - destruct (@waybar_record_ok timestamp cpu_temp mem_info cpu_load Hf)
      as (r & -> & _). reflexivity.
  - unfold waybar_record.
    destruct (@mem_text_not_formattable mem_info Hf) as (e & -> & He).
    cbn [bind]. split; [reflexivity | exact He].
Qed.

(** ** The exit status and the record *)

(** X14. Once [parse_arguments] has returned at line 282, the exit status and
    the class of the printed record agree: the run either exits 0 and prints
    a record of class and alt ["hwinfo"], or exits 1 and prints the record
    of class and alt ["hwinfo-error"] whose text is ["CPU: N/A | MEM: N/A"].
    The only other way a run ends is the exit of argparse itself at line
    282, before the [try]: with the status of argparse, and with nothing
    printed by [main]. *)
Theorem exit_status_matches_class args timestamp temperature memory load :
  let out := main_from args timestamp temperature memory load in
  match args with
  | Namespace _ =>
      exists line r,
        stdout out = [line] /\ parse_output line = Some r
        /\ ((exit_code out = 0 /\ class r = lit "hwinfo" /\ alt r = lit "hwinfo")
            \/ (exit_code out = 1 /\ class r = lit "hwinfo-error"
                /\ alt r = lit "hwinfo-error"
                /\ text r = lit "CPU: N/A | MEM: N/A"))
  | SystemExit status printed => stdout out = printed /\ exit_code out = status
  end.
Proof.
  intros out. subst out. destruct args as [interval | status printed];
    [| split; reflexivity].
  cbn [main_from]. unfold main_with.
  destruct (try_body timestamp temperature memory load) as [js|e] eqn:E.
  - unfold try_body, format_waybar_output in E. invert_binds E. injection E as <-.
    match goal with
    | Hr : waybar_record _ _ _ _ = Ok _ |- _ =>
        destruct (waybar_record_fields _ _ _ _ Hr) as (mt & ml & _ & _ & ->)
    end.
    eexists. eexists.
    split; [reflexivity|]. split; [apply parse_output_json_dumps|].
    left. repeat split.
  - eexists. eexists. split; [reflexivity|]. split; [apply parse_output_json_dumps|].
    right. repeat split.
Qed.

(** ** Runs of the further properties *)

Lemma strategy_A_scan_witness :
  let env := env_with_temps scan_temps [] in
  let entries := [entry 55.0%float; entry 57.0%float] in
  (psutil env = Some (psutil_with_temps scan_temps)
   /\ sensors_temperatures (psutil_with_temps scan_temps)
      = Ok (scan_before ++ (lit "soc_cpu", entries) :: [(lit "gpu_core", [entry 70.0%float])])
   /\ dict_get (lit "acpitz") scan_temps = Some [entry 0.0%float]
   /\ cpu_like (H := ascii_text) (lit "CPU_Thermal") = true
   /\ cpu_like (H := ascii_text) (lit "soc_cpu") = true
   /\ has_valid entries = true)
  /\ strategy_A (H := ascii_text) env = Ok (Some 56.0%float).
Proof.
  intros env entries. split; [repeat split; reflexivity |].
  refine (eq_trans
            (proj2 (@strategy_A_scan ascii_text env (psutil_with_temps scan_temps)
                      scan_before (lit "soc_cpu") entries
                      [(lit "gpu_core", [entry 70.0%float])]
                      eq_refl eq_refl _ _ eq_refl eq_refl))
            _).
  - intros k es Hk E. cbn [cpu_keys In] in Hk.
    repeat (destruct Hk as [<- | Hk];
            [vm_compute in E; first [discriminate | injection E as <-; reflexivity] |]).
    contradiction.
  - intros n es Hin Hc. cbn [scan_before In] in Hin.
    repeat (destruct Hin as [Hin | Hin];
            [injection Hin as <- <-; first [reflexivity | vm_compute in Hc; discriminate] |]).
    contradiction.
  - vm_compute. reflexivity.
Defined.

Lemma get_cpu_temperature_rounded_mean_witness :
  let env := env_with_temps live_k10temp [] in
  get_cpu_temperature (H := ascii_text) env = Num 46.0%float
  /\ exists readings avg_temp,
       readings <> []
       /\ Forall (fun x => in_range x = true) readings
       /\ 46.0%float = round1 avg_temp
       /\ ((sensor_group_readings (H := ascii_text) env readings
            /\ float_div_int (float_sum readings) (Z.of_nat (List.length readings))
               = Ok avg_temp)
           \/ (readings = zones_to_use (H := ascii_text) env
               /\ float_div_int (py_sum (PyText := ascii_text) readings)
                                (Z.of_nat (List.length readings))
                  = Ok avg_temp)).
Proof.
  intros env.
  assert (E : get_cpu_temperature (H := ascii_text) env = Num 46.0%float)
    by (vm_compute; reflexivity).
  split; [exact E |].
  exact (@get_cpu_temperature_rounded_mean ascii_text env 46.0%float E).
Defined.

Lemma unreadable_zone_is_skipped_witness :
  let env := no_psutil_env [] (raise IOError "No such file or directory") in
  let zs1 := [zone_of "acpitz" "45000"] in
  let zs2 := [zone_of "x86_pkg_temp" "50000"] in
  zone_unreadable (H := ascii_text) vanished_zone
  /\ get_cpu_temperature (H := ascii_text) (with_zones env (zs1 ++ vanished_zone :: zs2))
     = get_cpu_temperature (H := ascii_text) (with_zones env (zs1 ++ zs2))
  /\ get_cpu_temperature (H := ascii_text) (with_zones env (zs1 ++ zs2)) = Num 50.0%float.
Proof.
  intros env zs1 zs2.
  assert (Hz : zone_unreadable (H := ascii_text) vanished_zone).
  { left. eexists. split; reflexivity. }
  split; [exact Hz |]. split; [| reflexivity].
  exact (@unreadable_zone_is_skipped ascii_text env zs1 vanished_zone zs2 Hz).
Defined.

Lemma fatal_zone_loses_all_readings_witness :
  let env := no_psutil_env [zone_of "coretemp" "45000"; overflowing_zone]
                           (raise IOError "No such file or directory") in
  (reaches_strategy_B (H := ascii_text) env
   /\ In overflowing_zone (thermal_zones env)
   /\ zone_fatal (H := ascii_text) overflowing_zone
   /\ zone_temperature (H := ascii_text) (zone_of "coretemp" "45000") = Ok 45.0%float)
  /\ get_cpu_temperature (H := ascii_text) env = NA.
Proof.
  intros env.
  assert (HA : reaches_strategy_B (H := ascii_text) env).
  { intros t E. vm_compute in E. discriminate. }
  assert (Hin : In overflowing_zone (thermal_zones env)) by (right; left; reflexivity).
  assert (Hz : zone_fatal (H := ascii_text) overflowing_zone).
  { right. exists (lit "acpitz"), (mk_exn OverflowError (lit "int too large to convert to float")).
    repeat split; vm_compute; reflexivity. }
  split; [repeat split; try assumption; reflexivity |].
  exact (@fatal_zone_loses_all_readings ascii_text env overflowing_zone HA Hin Hz).
Defined.

Lemma preferred_readings_hide_fallback_witness :
  let env := no_psutil_env [] (raise IOError "No such file or directory") in
  let zs1 := [zone_of "x86_pkg_temp" "50000"] in
  (zone_not_preferred (H := ascii_text) (zone_of "acpitz" "45000")
   /\ zone_loop (H := ascii_text) ([], []) (zs1 ++ []) = Ok ([50.0%float], [])
   /\ [50.0%float] <> [])
  /\ get_cpu_temperature (H := ascii_text)
       (with_zones env (zs1 ++ zone_of "acpitz" "45000" :: []))
     = get_cpu_temperature (H := ascii_text) (with_zones env (zs1 ++ []))
  /\ get_cpu_temperature (H := ascii_text) (with_zones env (zs1 ++ [])) = Num 50.0%float.
Proof.
  intros env zs1.
  assert (Hz : zone_not_preferred (H := ascii_text) (zone_of "acpitz" "45000")).
  { exists (lit "acpitz"), 45.0%float. repeat split; reflexivity. }
  assert (El : zone_loop (H := ascii_text) ([], []) (zs1 ++ []) = Ok ([50.0%float], []))
    by reflexivity.
  assert (Hp : [50.0%float] <> []) by discriminate.
  split; [repeat split; assumption |]. split; [| reflexivity].
  exact (@preferred_readings_hide_fallback ascii_text env zs1 (zone_of "acpitz" "45000") []
           [50.0%float] [] Hz El Hp).
Defined.

Lemma zero_MemTotal_is_unavailable_witness :
  let env := no_psutil_env [] (Ok meminfo_zero_total) in
  let tbl := [(lit "MemAvailable", 0); (lit "MemTotal", 0)] in
  (memory_from_psutil env = Raise (mk_exn ImportError (lit "No module named 'psutil'"))
   /\ meminfo_file env = Ok meminfo_zero_total
   /\ meminfo_loop (H := ascii_text) [] meminfo_zero_total = Ok tbl
   /\ dict_get (lit "MemTotal") tbl = Some 0
   /\ dict_get (lit "MemAvailable") tbl = Some 0)
  /\ get_memory_usage (H := ascii_text) env = no_memory.
Proof.
  intros env tbl.
  assert (Hyp : memory_from_psutil env
                = Raise (mk_exn ImportError (lit "No module named 'psutil'"))
                /\ meminfo_file env = Ok meminfo_zero_total
                /\ meminfo_loop (H := ascii_text) [] meminfo_zero_total = Ok tbl
                /\ dict_get (lit "MemTotal") tbl = Some 0
                /\ dict_get (lit "MemAvailable") tbl = Some 0)
    by (repeat split; reflexivity).
  split; [exact Hyp |]. destruct Hyp as (H1 & H2 & H3 & H4 & H5).
  exact (@zero_MemTotal_is_unavailable ascii_text env _ _ _ _ H1 H2 H3 H4 H5).
Defined.

Lemma malformed_row_is_unavailable_witness :
  let env := no_psutil_env [] (Ok meminfo_blank_row) in
  (memory_from_psutil env = Raise (mk_exn ImportError (lit "No module named 'psutil'"))
   /\ meminfo_file env = Ok meminfo_blank_row
   /\ In (lit "HugePages_Total:") meminfo_blank_row
   /\ malformed_row (H := ascii_text) (lit "HugePages_Total:")
   /\ get_memory_usage (H := ascii_text) (no_psutil_env [] (Ok meminfo_16GB)) = memory_16GB)
  /\ get_memory_usage (H := ascii_text) env = no_memory.
Proof.
  intros env.
  assert (H1 : memory_from_psutil env
               = Raise (mk_exn ImportError (lit "No module named 'psutil'")))
    by reflexivity.
  assert (H2 : meminfo_file env = Ok meminfo_blank_row) by reflexivity.
  assert (H3 : In (lit "HugePages_Total:") meminfo_blank_row)
    by (do 4 right; left; reflexivity).
  assert (H4 : malformed_row (H := ascii_text) (lit "HugePages_Total:")).
  { exists (lit "HugePages_Total"), []. split; [reflexivity | left; reflexivity]. }
  split; [repeat split; try assumption; reflexivity |].
  exact (@malformed_row_is_unavailable ascii_text env _ _ _ H1 H2 H3 H4).
Defined.

Lemma row_without_one_colon_is_ignored_witness :
  let env := no_psutil_env [] (raise IOError "No such file or directory") in
  let row := lit "12:30:00 up 3 days" in
  List.length (split_on 58 row) <> 2%nat
  /\ get_memory_usage (H := ascii_text) (with_meminfo env ([] ++ row :: meminfo_16GB))
     = get_memory_usage (H := ascii_text) (with_meminfo env ([] ++ meminfo_16GB))
  /\ get_memory_usage (H := ascii_text) (with_meminfo env ([] ++ meminfo_16GB)) = memory_16GB.
Proof.
  intros env row.
  assert (Hl : List.length (split_on 58 row) <> 2%nat) by (vm_compute; discriminate).
  split; [exact Hl |]. split; [| reflexivity].
  exact (@row_without_one_colon_is_ignored ascii_text env [] row meminfo_16GB Hl).
Defined.

Lemma last_row_of_a_key_wins_witness :
  let ls1 := [lit "MemTotal:        8000000 kB"] in
  let row := lit "MemTotal:       16000000 kB" in
  let ls2 := [lit "MemFree:         1000000 kB"] in
  let tbl := [(lit "MemFree", 1000000); (lit "MemTotal", 16000000);
              (lit "MemTotal", 8000000)] in
  (row_binds (H := ascii_text) row (lit "MemTotal") 16000000
   /\ (forall l, In l ls2 -> row_spares (H := ascii_text) l (lit "MemTotal"))
   /\ meminfo_loop (H := ascii_text) [] (ls1 ++ row :: ls2) = Ok tbl)
  /\ dict_get (lit "MemTotal") tbl = Some 16000000.
Proof.
  intros ls1 row ls2 tbl.
  assert (Hb : row_binds (H := ascii_text) row (lit "MemTotal") 16000000).
  { exists (lit "MemTotal"), (lit "       16000000 kB"), (lit "16000000"), [lit "kB"].
    repeat split; reflexivity. }
  assert (Hs : forall l, In l ls2 -> row_spares (H := ascii_text) l (lit "MemTotal")).
  { intros l [<- | []] p0 p1 E. vm_compute in E. injection E as <- <-.
    vm_compute. discriminate. }
  assert (El : meminfo_loop (H := ascii_text) [] (ls1 ++ row :: ls2) = Ok tbl)
    by reflexivity.
  split; [repeat split; assumption |].
  exact (@last_row_of_a_key_wins ascii_text ls1 row ls2 (lit "MemTotal") 16000000 tbl
           Hb Hs El).
Defined.

Lemma tooltip_lines_witness :
  let timestamp := lit "12:00:00" in
  one_line timestamp
  /\ exists r,
       waybar_record timestamp (Num 45.0%float) memory_16GB two_core_load = Ok r
       /\ split_on 10 (tooltip r)
          = [lit "Hardware Info"; lit "CPU Temp: 45.0" ++ deg_c ++ lit " (12.3%)";
             lit "CPU Load:"; lit "  Core 0: 12.5%"; lit "  Core 1: 3.0%";
             lit "Memory: 7782.40MB / 15667.20MB (50.0%)"; lit "Updated: 12:00:00"].
Proof.
  intros timestamp.
  assert (Hts : one_line timestamp) by (apply printable_one_line; printable_lit).
  split; [exact Hts |].
  destruct (waybar_record timestamp (Num 45.0%float) memory_16GB two_core_load)
    as [r|e] eqn:E; [| vm_compute in E; discriminate].
  exists r. split; [reflexivity |].
  destruct (@tooltip_lines timestamp (Num 45.0%float) memory_16GB two_core_load r Hts E)
    as (mem_line & El & Es & _).
  rewrite memory_line_16GB in El. injection El as <-.
  rewrite Es. vm_compute. reflexivity.
Defined.

Lemma format_waybar_output_round_trip_witness :
  let timestamp := lit "12:00:00" in
  is_bmp timestamp
  /\ exists js r,
       format_waybar_output timestamp (Num 45.0%float) memory_16GB two_core_load = Ok js
       /\ waybar_record timestamp (Num 45.0%float) memory_16GB two_core_load = Ok r
       /\ parse_output js = Some r.
Proof.
  intros timestamp.
  assert (Hts : is_bmp timestamp) by (apply printable_bmp; printable_lit).
  split; [exact Hts |].
  destruct (format_waybar_output timestamp (Num 45.0%float) memory_16GB two_core_load)
    as [js|e] eqn:E; [| vm_compute in E; discriminate].
  destruct (@format_waybar_output_round_trip timestamp (Num 45.0%float) memory_16GB
              two_core_load js Hts E) as (r & Er & Ep).
  exists js, r. repeat split; assumption.
Defined.

(** X15. Strategy A reads a CPU temperature only from a priority group or a
    group whose name contains [cpu] or [core]: when none of those has a
    valid reading, valid readings of other devices (a drive, a battery) are
    never returned, and the result is Strategy B's alone. *)
Theorem other_devices_are_never_reported `{PyText} (env : Env) p temps :
  psutil env = Some p ->
  sensors_temperatures p = Ok temps ->
  (forall k es, In k cpu_keys -> dict_get k temps = Some es -> has_valid es = false) ->
  (forall n es, In (n, es) temps -> cpu_like n = true -> has_valid es = false) ->
  strategy_A env = Ok None
  /\ get_cpu_temperature env
     = match strategy_B env with Ok v => v | Raise _ => NA end.
Proof.
  intros Hp Ht Hprio Hscan.
  assert (EA : strategy_A env = Ok None).
  { rewrite (strategy_A_falls_to_scan _ Hp Ht Hprio). apply scan_loop_no_valid. exact Hscan. }
  split; [exact EA |]. unfold get_cpu_temperature. rewrite EA. reflexivity.
Qed.

Lemma other_devices_are_never_reported_witness :
  let env := env_with_temps other_devices [zone_of "acpitz" "45000"] in
  (psutil env = Some (psutil_with_temps other_devices)
   /\ sensors_temperatures (psutil_with_temps other_devices) = Ok other_devices
   /\ has_valid [entry 40.0%float] = true)
  /\ get_cpu_temperature (H := ascii_text) env = Num 45.0%float.
Proof.
  intros env. split; [repeat split; reflexivity |].
  refine (eq_trans
            (proj2 (@other_devices_are_never_reported ascii_text env
                      (psutil_with_temps other_devices) other_devices
                      eq_refl eq_refl _ _))
            _).
  - intros k es Hk E. cbn [cpu_keys In] in Hk.
    repeat (destruct Hk as [<- | Hk]; [vm_compute in E; discriminate |]).
    contradiction.
  - intros n es Hin Hc. cbn [other_devices In] in Hin.
    repeat (destruct Hin as [Hin | Hin];
            [injection Hin as <- <-; vm_compute in Hc; discriminate |]).
    contradiction.
  - vm_compute. reflexivity.
Defined.
